(** * Schema simplification for Databricks: a shallow embedding

    This development embeds [src/server/transportWrapper.ts] and the schema
    simplifier it imports ([simplifySchemaForDatabricks],
    [mergeSchemaOptions], [mergePropertySchemas], [normalizeType],
    [simplifyToolInputSchema], [simplifyToolsListResponse]) and states the
    properties of the design document about them.

    Modelling conventions.

    - A value of the TypeScript interface [JsonSchema] is a record with one
      optional field per declared member; [None] stands for a member that is
      absent or holds [undefined] (the two are indistinguishable once the
      message is serialised).  Members outside the interface (the index
      signature) are kept in [extra].
    - Objects used as maps ([properties], [$defs], the merged property table)
      are association lists of their own properties in insertion order.  A
      read [o[k]] goes through the prototype chain ([js_lookup]): a name
      that [o] lacks and [Object.prototype] has gives the inherited member.
      An assignment [o[k] = v] adds or replaces an own property, except for
      the name [__proto__] ([js_assign]).
    - The recursion of the simplifier is not structural (a [$ref] is followed
      at the same depth), so it carries a fuel argument counting the nesting
      of calls; [None] means that the fuel did not suffice.
    - Numbers occur only as literals that are copied or tested for
      truthiness, and are integers here. *)

From Stdlib Require Import String List ZArith Bool Lia Ascii Decimal DecimalString.
Import ListNotations.
Open Scope string_scope.
Open Scope Z_scope.

Set Implicit Arguments.
Set Warnings "-register-all".

(* ------------------------------------------------------------------ *)
(** * Data model *)

(** Literal values ([unknown] members: [enum], [const], [default], and the
    members allowed by the index signature). *)
Inductive Json : Type :=
| LNull
| LBool (b : bool)
| LNum (n : Z)
| LStr (s : string)
| LArr (l : list Json)
| LObj (fields : list (string * Json)).

(** [type?: string | string[]] *)
Inductive TypeVal : Type :=
| TSingle (tag : string)
| TSet (tags : list string).

(** [interface JsonSchema] *)
Inductive JsonSchema : Type := mkJsonSchema {
  type : option TypeVal;
  properties : option (list (string * JsonSchema));
  items : option JsonSchema;
  required : option (list string);
  anyOf : option (list JsonSchema);
  oneOf : option (list JsonSchema);
  allOf : option (list JsonSchema);
  dollar_ref : option string;
  dollar_defs : option (list (string * JsonSchema));
  definitions : option (list (string * JsonSchema));
  enum : option (list Json);
  const : option Json;
  description : option string;
  default : option Json;
  additionalProperties : option (bool + JsonSchema);
  extra : list (string * Json)
}.

Definition Record_ (A : Type) : Type := list (string * A).

(** The object literal [{}]. *)
Definition emptySchema : JsonSchema :=
  mkJsonSchema None None None None None None None None None None
               None None None None None [].

(** Member assignment [s.member = v] / [{...s, member: v}]. *)
Definition with_type (v : option TypeVal) (s : JsonSchema) : JsonSchema :=
  mkJsonSchema v (properties s) (items s) (required s) (anyOf s) (oneOf s)
    (allOf s) (dollar_ref s) (dollar_defs s) (definitions s) (enum s)
    (const s) (description s) (default s) (additionalProperties s) (extra s).

Definition with_properties (v : option (list (string * JsonSchema)))
    (s : JsonSchema) : JsonSchema :=
  mkJsonSchema (type s) v (items s) (required s) (anyOf s) (oneOf s)
    (allOf s) (dollar_ref s) (dollar_defs s) (definitions s) (enum s)
    (const s) (description s) (default s) (additionalProperties s) (extra s).

Definition with_items (v : option JsonSchema) (s : JsonSchema) : JsonSchema :=
  mkJsonSchema (type s) (properties s) v (required s) (anyOf s) (oneOf s)
    (allOf s) (dollar_ref s) (dollar_defs s) (definitions s) (enum s)
    (const s) (description s) (default s) (additionalProperties s) (extra s).

Definition with_required (v : option (list string)) (s : JsonSchema)
    : JsonSchema :=
  mkJsonSchema (type s) (properties s) (items s) v (anyOf s) (oneOf s)
    (allOf s) (dollar_ref s) (dollar_defs s) (definitions s) (enum s)
    (const s) (description s) (default s) (additionalProperties s) (extra s).

Definition with_enum (v : option (list Json)) (s : JsonSchema) : JsonSchema :=
  mkJsonSchema (type s) (properties s) (items s) (required s) (anyOf s)
    (oneOf s) (allOf s) (dollar_ref s) (dollar_defs s) (definitions s) v
    (const s) (description s) (default s) (additionalProperties s) (extra s).

Definition with_const (v : option Json) (s : JsonSchema) : JsonSchema :=
  mkJsonSchema (type s) (properties s) (items s) (required s) (anyOf s)
    (oneOf s) (allOf s) (dollar_ref s) (dollar_defs s) (definitions s)
    (enum s) v (description s) (default s) (additionalProperties s) (extra s).

Definition with_description (v : option string) (s : JsonSchema)
    : JsonSchema :=
  mkJsonSchema (type s) (properties s) (items s) (required s) (anyOf s)
    (oneOf s) (allOf s) (dollar_ref s) (dollar_defs s) (definitions s)
    (enum s) (const s) v (default s) (additionalProperties s) (extra s).

Definition with_default (v : option Json) (s : JsonSchema) : JsonSchema :=
  mkJsonSchema (type s) (properties s) (items s) (required s) (anyOf s)
    (oneOf s) (allOf s) (dollar_ref s) (dollar_defs s) (definitions s)
    (enum s) (const s) (description s) v (additionalProperties s) (extra s).

Definition with_additionalProperties (v : option (bool + JsonSchema))
    (s : JsonSchema) : JsonSchema :=
  mkJsonSchema (type s) (properties s) (items s) (required s) (anyOf s)
    (oneOf s) (allOf s) (dollar_ref s) (dollar_defs s) (definitions s)
    (enum s) (const s) (description s) (default s) v (extra s).

(* ------------------------------------------------------------------ *)
(** * JavaScript objects as ordered maps *)

Section Objects.
Variable A : Type.

(** [o[k]], own properties only. *)
Fixpoint obj_get (k : string) (o : Record_ A) : option A :=
  match o with
  | [] => None
  | (k', v) :: rest => if String.eqb k k' then Some v else obj_get k rest
  end.

(** [o[k] = v]: an existing key keeps its position, a new one is added
    last. *)
Fixpoint obj_set (k : string) (v : A) (o : Record_ A) : Record_ A :=
  match o with
  | [] => [(k, v)]
  | (k', v') :: rest =>
      if String.eqb k k' then (k, v) :: rest
      else (k', v') :: obj_set k v rest
  end.

Definition obj_keys (o : Record_ A) : list string := map fst o.
End Objects.

(** Truthiness of the member types that the code tests. *)
Definition truthy_string (s : option string) : bool :=
  match s with
  | Some s => negb (String.eqb s "")
  | None => false
  end.

Definition truthy_type (t : option TypeVal) : bool :=
  match t with
  | Some (TSingle s) => negb (String.eqb s "")
  | Some (TSet _) => true
  | None => false
  end.

Definition is_some {A : Type} (o : option A) : bool :=
  match o with Some _ => true | None => false end.

(** [o || d] for an optional object or array member (both always truthy). *)
Definition or_else {A : Type} (o : option A) (d : A) : A :=
  match o with Some a => a | None => d end.

(** [t === 'tag'] *)
Definition type_is (tag : string) (t : option TypeVal) : bool :=
  match t with
  | Some (TSingle s) => String.eqb s tag
  | _ => false
  end.

(** [t1 === t2] on two [type] members.  Two arrays are equal only when they
    are the same object, which the model does not track: a set-valued type
    compares unequal (the simplifier never returns one, see
    [simplify_forbiddenFreeOutside]). *)
Definition type_strict_eq (t1 t2 : option TypeVal) : bool :=
  match t1, t2 with
  | None, None => true
  | Some (TSingle a), Some (TSingle b) => String.eqb a b
  | _, _ => false
  end.

(** [s.replace(pat, '')] for a non-empty string pattern: the first
    occurrence of [pat], wherever it is, is removed. *)
Fixpoint string_drop (n : nat) (s : string) : string :=
  match n, s with
  | O, _ => s
  | S n', String _ s' => string_drop n' s'
  | S _, EmptyString => EmptyString
  end.

Fixpoint replace_first (pat s : string) : string :=
  if String.prefix pat s then string_drop (String.length pat) s
  else match s with
       | EmptyString => EmptyString
       | String c s' => String c (replace_first pat s')
       end.

(* ------------------------------------------------------------------ *)
(** * Type Normalizer *)

(** [function normalizeType(type)] *)
Definition normalizeType (type : option TypeVal) : option string :=
  match type with
  | None => None
  | Some (TSingle s) => if String.eqb s "" then None else Some s
  | Some (TSet tags) =>
      let nonNullTypes := filter (fun t => negb (String.eqb t "null")) tags in
      match nonNullTypes with
      | t :: _ => Some t
      | [] => Some "null"
      end
  end.

(* ------------------------------------------------------------------ *)
(** * Property Merger and Option Merger *)

(** The opaque fallback [{ type: 'object', additionalProperties: true }]. *)
Definition opaque : JsonSchema :=
  with_additionalProperties (Some (inl true))
    (with_type (Some (TSingle "object")) emptySchema).

(** [function mergePropertySchemas(schema1, schema2)] *)
Definition mergePropertySchemas (schema1 schema2 : JsonSchema) : JsonSchema :=
  if type_strict_eq (type schema1) (type schema2) then schema1
  else if truthy_type (type schema1) && negb (truthy_type (type schema2))
  then schema1
  else if truthy_type (type schema2) && negb (truthy_type (type schema1))
  then schema2
  else
    let descriptions :=
      filter truthy_string [description schema1; description schema2] in
    let joined :=
      String.concat " OR "
        (flat_map (fun d => match d with Some s => [s] | None => [] end)
                  descriptions) in
    let r := with_type (Some (TSingle "string")) emptySchema in
    if (0 <? Z.of_nat (length descriptions))
    then with_description (Some joined) r
    else r.

(** [new Set(xs)]: the distinct elements in order of first insertion. *)
Definition set_has (x : string) (s : list string) : bool :=
  existsb (String.eqb x) s.

Fixpoint set_add_all (xs : list string) (s : list string) : list string :=
  match xs with
  | [] => s
  | x :: rest => set_add_all rest (if set_has x s then s else s ++ [x])
  end.

Definition Set_of (xs : list string) : list string := set_add_all xs [].

(** The names of the members of [Object.prototype]. *)
Definition objectPrototypeMembers : list string :=
  ["constructor"; "__defineGetter__"; "__defineSetter__"; "hasOwnProperty";
   "__lookupGetter__"; "__lookupSetter__"; "isPrototypeOf";
   "propertyIsEnumerable"; "toString"; "valueOf"; "__proto__";
   "toLocaleString"].

Definition isObjectPrototypeMember (k : string) : bool :=
  existsb (String.eqb k) objectPrototypeMembers.

(** A member of [Object.prototype] (a function; for [__proto__] the
    prototype itself) as the program sees it when it reads it through the
    interface [JsonSchema]: a node that has none of the members. *)
Definition inheritedMember : JsonSchema := emptySchema.

(** [o[k]] for an ordinary object used as a table of schemas: the own
    property, else the member that [Object.prototype] has under that
    name. *)
Definition js_lookup (k : string) (o : Record_ JsonSchema)
    : option JsonSchema :=
  match obj_get k o with
  | Some v => Some v
  | None => if isObjectPrototypeMember k then Some inheritedMember else None
  end.

(** [o[k] = v] for a fresh table [o] and an object [v]: an own property is
    added or replaced, except under the name [__proto__], where the setter
    of [Object.prototype] makes [v] the prototype of [o] and [o] gets no own
    property (nothing reads such a table by name afterwards). *)
Definition js_assign (k : string) (v : JsonSchema) (o : Record_ JsonSchema)
    : Record_ JsonSchema :=
  if String.eqb k "__proto__" then o else obj_set k v o.

(** The inner loop of [mergeSchemaOptions]: the properties of one object
    option are entered into [mergedProperties].  The entries are own
    properties of a table that the simplifier returned, none of which is
    named [__proto__] (see [simplifyProperties]). *)
Fixpoint mergeEntries (entries : Record_ JsonSchema)
    (mergedProperties : Record_ JsonSchema) : Record_ JsonSchema :=
  match entries with
  | [] => mergedProperties
  | (key, propSchema) :: rest =>
      mergeEntries rest
        (match js_lookup key mergedProperties with
         | None => obj_set key propSchema mergedProperties
         | Some existing =>
             obj_set key (mergePropertySchemas existing propSchema)
                     mergedProperties
         end)
  end.

(** The state of the walk over the options. *)
Record MergeState : Type := mkMergeState {
  mergedProperties : Record_ JsonSchema;
  requiredSets : list (list string);
  hasObjectOptions : bool
}.

Definition initialMergeState : MergeState := mkMergeState [] [] false.

(** [simplified.type === 'object' && simplified.properties] *)
Definition isObjectOption (simplified : JsonSchema) : bool :=
  type_is "object" (type simplified) && is_some (properties simplified).

(** The [for (const option of options)] loop of [mergeSchemaOptions].
    [simplify] is the recursive call on one option; the result is [None]
    when that call does not return, [inl] for the early [return simplified],
    and [inr] with the final state when the loop runs to its end. *)
Fixpoint mergeLoop (simplify : JsonSchema -> option JsonSchema)
    (options : list JsonSchema) (st : MergeState)
    : option (JsonSchema + MergeState) :=
  match options with
  | [] => Some (inr st)
  | option :: rest =>
      match simplify option with
      | None => None
      | Some simplified =>
          if isObjectOption simplified then
            let optionRequired := Set_of (or_else (required simplified) []) in
            mergeLoop simplify rest
              (mkMergeState
                 (mergeEntries (or_else (properties simplified) [])
                               (mergedProperties st))
                 (requiredSets st ++ [optionRequired])
                 true)
          else if truthy_type (type simplified)
                  && negb (hasObjectOptions st)
          then Some (inl simplified)
          else mergeLoop simplify rest st
      end
  end.

(** The part of [mergeSchemaOptions] after the loop. *)
Definition finalRequired (requiredSets : list (list string)) : list string :=
  match requiredSets with
  | firstSet :: _ =>
      filter (fun prop => forallb (fun set => set_has prop set) requiredSets)
             firstSet
  | [] => []
  end.

Definition mergeFinish (st : MergeState) : JsonSchema :=
  if negb (hasObjectOptions st) then opaque
  else
    let r :=
      with_properties (Some (mergedProperties st))
        (with_type (Some (TSingle "object")) emptySchema) in
    if (0 <? Z.of_nat (length (finalRequired (requiredSets st))))
    then with_required (Some (finalRequired (requiredSets st))) r
    else r.

(** [function mergeSchemaOptions(options, maxDepth, currentDepth, defs)];
    the first argument is the simplifier it calls back. *)
Definition mergeSchemaOptions
    (simplify : JsonSchema -> Z -> Z -> Record_ JsonSchema
                -> option JsonSchema)
    (options : list JsonSchema) (maxDepth currentDepth : Z)
    (defs : Record_ JsonSchema) : option JsonSchema :=
  match mergeLoop (fun option => simplify option maxDepth currentDepth defs)
                  options initialMergeState with
  | None => None
  | Some (inl simplified) => Some simplified
  | Some (inr st) => Some (mergeFinish st)
  end.

(* ------------------------------------------------------------------ *)
(** * Schema Simplifier *)

(** The loop over [Object.entries(schemaToProcess.properties)]. *)
Fixpoint simplifyProperties (simplify : JsonSchema -> option JsonSchema)
    (entries : Record_ JsonSchema) (simplifiedProperties : Record_ JsonSchema)
    : option (Record_ JsonSchema) :=
  match entries with
  | [] => Some simplifiedProperties
  | (key, propSchema) :: rest =>
      match simplify propSchema with
      | None => None
      | Some p =>
          simplifyProperties simplify rest
            (js_assign key p simplifiedProperties)
      end
  end.

(** [Object.keys(s)]: the members that are present. *)
Definition schema_keys (s : JsonSchema) : list string :=
  ((if is_some (type s) then ["type"] else [])
  ++ (if is_some (properties s) then ["properties"] else [])
  ++ (if is_some (items s) then ["items"] else [])
  ++ (if is_some (required s) then ["required"] else [])
  ++ (if is_some (anyOf s) then ["anyOf"] else [])
  ++ (if is_some (oneOf s) then ["oneOf"] else [])
  ++ (if is_some (allOf s) then ["allOf"] else [])
  ++ (if is_some (dollar_ref s) then ["$ref"] else [])
  ++ (if is_some (dollar_defs s) then ["$defs"] else [])
  ++ (if is_some (definitions s) then ["definitions"] else [])
  ++ (if is_some (enum s) then ["enum"] else [])
  ++ (if is_some (const s) then ["const"] else [])
  ++ (if is_some (description s) then ["description"] else [])
  ++ (if is_some (default s) then ["default"] else [])
  ++ (if is_some (additionalProperties s) then ["additionalProperties"]
      else [])
  ++ map fst (extra s))%list.

(** The last branch of [simplifySchemaForDatabricks] ("primitive types"). *)
Definition simplifyPrimitive (schemaToProcess : JsonSchema) : JsonSchema :=
  let simplified := emptySchema in
  let simplified :=
    if truthy_type (type schemaToProcess)
    then with_type (type schemaToProcess) simplified else simplified in
  let simplified :=
    if is_some (enum schemaToProcess)
    then with_enum (enum schemaToProcess) simplified else simplified in
  let simplified :=
    if is_some (const schemaToProcess)
    then with_const (const schemaToProcess) simplified else simplified in
  let simplified :=
    if truthy_string (description schemaToProcess)
    then with_description (description schemaToProcess) simplified
    else simplified in
  let simplified :=
    if is_some (default schemaToProcess)
    then with_default (default schemaToProcess) simplified else simplified in
  let simplified :=
    if negb (truthy_type (type simplified)) then
      match enum simplified with
      | Some (firstValue :: _) =>
          match firstValue with
          | LStr _ => with_type (Some (TSingle "string")) simplified
          | LNum _ => with_type (Some (TSingle "number")) simplified
          | LBool _ => with_type (Some (TSingle "boolean")) simplified
          | _ => simplified
          end
      | _ => simplified
      end
    else simplified in
  if (0 <? Z.of_nat (length (schema_keys simplified))) then simplified
  else with_type (Some (TSingle "object")) emptySchema.

(** [schemaToProcess]: the node with a set-valued [type] normalised. *)
Definition schemaToProcessOf (schema : JsonSchema) : JsonSchema :=
  match type schema with
  | Some (TSet _) =>
      with_type (option_map TSingle (normalizeType (type schema))) schema
  | _ => schema
  end.

(** The name under which a reference is looked up:
    [ref.replace('#/$defs/', '').replace('#/definitions/', '')]. *)
Definition refPathOf (r : string) : string :=
  replace_first "#/definitions/" (replace_first "#/$defs/" r).

(** [definitions || schema.$defs || schema.definitions || {}] *)
Definition tableOf (schema : JsonSchema)
    (definitions' : option (Record_ JsonSchema)) : Record_ JsonSchema :=
  or_else definitions'
    (or_else (dollar_defs schema) (or_else (definitions schema) [])).

(** The body of [simplifySchemaForDatabricks(schema, maxDepth, currentDepth,
    definitions)]; [recur] stands for its recursive calls, which all pass
    the reference table on.  [definitions'] is [None] when the caller leaves
    the fourth argument out. *)
Definition simplifyBody
    (recur : JsonSchema -> Z -> Z -> Record_ JsonSchema -> option JsonSchema)
    (schema : JsonSchema) (maxDepth currentDepth : Z)
    (definitions' : option (Record_ JsonSchema)) : option JsonSchema :=
  let defs := tableOf schema definitions' in
  if currentDepth >? maxDepth then Some opaque
  else
    let schemaToProcess := schemaToProcessOf schema in
    if truthy_string (dollar_ref schemaToProcess) then
      let refPath := refPathOf (or_else (dollar_ref schemaToProcess) "") in
      match js_lookup refPath defs with
      | Some refSchema => recur refSchema maxDepth currentDepth defs
      | None => Some opaque
      end
    else if is_some (anyOf schemaToProcess)
            || is_some (oneOf schemaToProcess) then
      let options :=
        or_else (anyOf schemaToProcess)
                (or_else (oneOf schemaToProcess) []) in
      mergeSchemaOptions recur options maxDepth currentDepth defs
    else if is_some (allOf schemaToProcess) then
      mergeSchemaOptions recur (or_else (allOf schemaToProcess) [])
                         maxDepth currentDepth defs
    else if type_is "object" (type schemaToProcess)
            && is_some (properties schemaToProcess) then
      match simplifyProperties
              (fun propSchema =>
                 recur propSchema maxDepth (currentDepth + 1) defs)
              (or_else (properties schemaToProcess) []) [] with
      | None => None
      | Some simplifiedProperties =>
          let r :=
            with_required (required schemaToProcess)
              (with_properties (Some simplifiedProperties)
                 (with_type (Some (TSingle "object")) emptySchema)) in
          let r :=
            if truthy_string (description schemaToProcess)
            then with_description (description schemaToProcess) r
            else r in
          Some (if is_some (additionalProperties schemaToProcess)
                then with_additionalProperties
                       (additionalProperties schemaToProcess) r
                else r)
      end
    else
      match (if type_is "array" (type schemaToProcess)
             then items schemaToProcess else None) with
      | Some itemsSchema =>
          match recur itemsSchema maxDepth (currentDepth + 1) defs with
          | None => None
          | Some simplifiedItems =>
              let r :=
                with_items (Some simplifiedItems)
                  (with_type (Some (TSingle "array")) emptySchema) in
              Some (if truthy_string (description schemaToProcess)
                    then with_description (description schemaToProcess) r
                    else r)
          end
      | None => Some (simplifyPrimitive schemaToProcess)
      end.

(** [export function simplifySchemaForDatabricks]: the body, with [fuel]
    bounding the nesting of its calls. *)
Fixpoint simplifySchemaForDatabricks (fuel : nat) (schema : JsonSchema)
    (maxDepth currentDepth : Z) (definitions' : option (Record_ JsonSchema))
    : option JsonSchema :=
  match fuel with
  | O => None
  | S fuel' =>
      simplifyBody
        (fun s m d ds => simplifySchemaForDatabricks fuel' s m d (Some ds))
        schema maxDepth currentDepth definitions'
  end.

(** The entry call [simplifySchemaForDatabricks(schema, maxDepth)]:
    [currentDepth] defaults to 0 and the reference table is collected from
    the node. *)
Definition simplify (fuel : nat) (maxDepth : Z) (schema : JsonSchema)
    : option JsonSchema :=
  simplifySchemaForDatabricks fuel schema maxDepth 0 None.

(* ------------------------------------------------------------------ *)
(** * Messages *)

(** Values of static type [unknown]: the outgoing message, its [result], the
    elements of [result.tools].  An object is a [JObj] (a
    [Record<string, unknown>]) unless the program reads it through the
    interface [JsonSchema], in which case it is a [JSchema]: the value of a
    tool's [inputSchema] is represented that way.  For arrays only the index
    properties are modelled. *)
Inductive JsVal : Type :=
| JUndefined
| JNull
| JBool (b : bool)
| JNum (n : Z)
| JStr (s : string)
| JArr (l : list JsVal)
| JObj (fields : list (string * JsVal))
| JSchema (s : JsonSchema).

(** [!!v] *)
Definition js_truthy (v : JsVal) : bool :=
  match v with
  | JUndefined | JNull => false
  | JBool b => b
  | JNum n => negb (n =? 0)
  | JStr s => negb (String.eqb s "")
  | JArr _ | JObj _ | JSchema _ => true
  end.

(** [typeof v] *)
Definition typeof (v : JsVal) : string :=
  match v with
  | JUndefined => "undefined"
  | JBool _ => "boolean"
  | JNum _ => "number"
  | JStr _ => "string"
  | JNull | JArr _ | JObj _ | JSchema _ => "object"
  end.

(** [Array.isArray(v)] *)
Definition isArray (v : JsVal) : bool :=
  match v with JArr _ => true | _ => false end.

(** A literal as a value. *)
Fixpoint lit (j : Json) : JsVal :=
  match j with
  | LNull => JNull
  | LBool b => JBool b
  | LNum n => JNum n
  | LStr s => JStr s
  | LArr l => JArr (map lit l)
  | LObj fields => JObj (map (fun kv => (fst kv, lit (snd kv))) fields)
  end.

Definition member {A : Type} (name : string) (f : A -> JsVal) (o : option A)
    : Record_ JsVal :=
  match o with Some a => [(name, f a)] | None => [] end.

Definition schemaMap (m : Record_ JsonSchema) : JsVal :=
  JObj (map (fun kv => (fst kv, JSchema (snd kv))) m).

(** The own enumerable properties of a schema object. *)
Definition schema_entries (s : JsonSchema) : Record_ JsVal :=
  (member "type"
    (fun t => match t with
              | TSingle tag => JStr tag
              | TSet tags => JArr (map JStr tags)
              end) (type s)
  ++ member "properties" schemaMap (properties s)
  ++ member "items" JSchema (items s)
  ++ member "required" (fun r => JArr (map JStr r)) (required s)
  ++ member "anyOf" (fun o => JArr (map JSchema o)) (anyOf s)
  ++ member "oneOf" (fun o => JArr (map JSchema o)) (oneOf s)
  ++ member "allOf" (fun o => JArr (map JSchema o)) (allOf s)
  ++ member "$ref" JStr (dollar_ref s)
  ++ member "$defs" schemaMap (dollar_defs s)
  ++ member "definitions" schemaMap (definitions s)
  ++ member "enum" (fun e => JArr (map lit e)) (enum s)
  ++ member "const" lit (const s)
  ++ member "description" JStr (description s)
  ++ member "default" lit (default s)
  ++ member "additionalProperties"
       (fun a => match a with inl b => JBool b | inr x => JSchema x end)
       (additionalProperties s)
  ++ map (fun kv => (fst kv, lit (snd kv))) (extra s))%list.

Fixpoint indexed (i : nat) (l : list JsVal) : Record_ JsVal :=
  match l with
  | [] => []
  | v :: rest => (NilZero.string_of_uint (Nat.to_uint i), v)
                 :: indexed (S i) rest
  end.

(** The own enumerable properties of a value, as the spread [{...v}] copies
    them. *)
Definition own_entries (v : JsVal) : Record_ JsVal :=
  match v with
  | JObj fields => fields
  | JSchema s => schema_entries s
  | JArr l => indexed 0 l
  | _ => []
  end.

(** [v.k] / [v[k]]: an absent property reads as [undefined]; the
    properties that the program reads ([method], [result], [tools],
    [inputSchema]) are absent from every primitive value. *)
Definition js_get (k : string) (v : JsVal) : JsVal :=
  or_else (obj_get k (own_entries v)) JUndefined.

(** The cast [v as JsonSchema] of a truthy value: a value that is not a
    schema object has none of the members of the interface. *)
Definition asJsonSchema (v : JsVal) : JsonSchema :=
  match v with
  | JSchema s => s
  | _ => emptySchema
  end.

(* ------------------------------------------------------------------ *)
(** * Response Interceptor *)

(** [function isToolsListResponse(message)] *)
Definition isToolsListResponse (message : JsVal) : bool :=
  if negb (js_truthy message) || negb (String.eqb (typeof message) "object")
  then false
  else
    let msg := message in
    if js_truthy (js_get "method" msg) || negb (js_truthy (js_get "result" msg))
    then false
    else
      let result := js_get "result" msg in
      isArray (js_get "tools" result).

(** [export function simplifyToolInputSchema(inputSchema)] *)
Definition simplifyToolInputSchema (fuel : nat) (inputSchema : JsVal)
    : option JsonSchema :=
  if negb (js_truthy inputSchema) then
    Some (with_properties (Some [])
            (with_type (Some (TSingle "object")) emptySchema))
  else simplifySchemaForDatabricks fuel (asJsonSchema inputSchema) 4 0 None.

(** The callback of [result.tools.map] in [simplifyToolsListResponse]. *)
Definition simplifyTool (fuel : nat) (tool : JsVal) : option JsVal :=
  if negb (js_truthy tool) || negb (String.eqb (typeof tool) "object")
  then Some tool
  else
    let t := tool in
    match simplifyToolInputSchema fuel (js_get "inputSchema" t) with
    | None => None
    | Some s => Some (JObj (obj_set "inputSchema" (JSchema s) (own_entries t)))
    end.

(** [xs.map(f)] for a callback that may fail to return. *)
Fixpoint mapM {A B : Type} (f : A -> option B) (xs : list A)
    : option (list B) :=
  match xs with
  | [] => Some []
  | x :: rest =>
      match f x with
      | None => None
      | Some y =>
          match mapM f rest with
          | None => None
          | Some ys => Some (y :: ys)
          end
      end
  end.

(** [export function simplifyToolsListResponse(response)] *)
Definition simplifyToolsListResponse (fuel : nat) (response : JsVal)
    : option JsVal :=
  if negb (js_truthy response) || negb (String.eqb (typeof response) "object")
  then Some response
  else
    let resp := response in
    if js_truthy (js_get "result" resp)
       && String.eqb (typeof (js_get "result" resp)) "object"
    then
      let result := js_get "result" resp in
      match js_get "tools" result with
      | JArr tools =>
          match mapM (simplifyTool fuel) tools with
          | None => None
          | Some simplifiedTools =>
              Some (JObj (obj_set "result"
                            (JObj (obj_set "tools" (JArr simplifiedTools)
                                           (own_entries result)))
                            (own_entries resp)))
          end
      | _ => Some response
      end
    else Some response.

(** The [send] that [wrapTransportForDatabricks] installs on the transport;
    [originalSend] is the transport's own, and its outcome is opaque. *)
Section Transport.
Variable Outcome : Type.
Variable originalSend : JsVal -> Outcome.

Definition wrappedSend (fuel : nat) (message : JsVal) : option Outcome :=
  if isToolsListResponse message then
    match simplifyToolsListResponse fuel message with
    | None => None
    | Some simplified => Some (originalSend simplified)
    end
  else Some (originalSend message).
End Transport.

(* ------------------------------------------------------------------ *)
(** * Schemas used in the statements *)

(** [{ type: tag }] *)
Definition ofType (tag : string) : JsonSchema :=
  with_type (Some (TSingle tag)) emptySchema.

(** [{ type: 'object', properties: ps }] *)
Definition objectOf (ps : Record_ JsonSchema) : JsonSchema :=
  with_properties (Some ps) (ofType "object").

(** [{ $ref: r }] *)
Definition refTo (r : string) : JsonSchema :=
  mkJsonSchema None None None None None None None (Some r) None None
               None None None None None [].

(** [{ $ref: "#/$defs/A", $defs: { A: { $ref: "#/$defs/A" } } }] *)
Definition selfReferential : JsonSchema :=
  mkJsonSchema None None None None None None None (Some "#/$defs/A")
               (Some [("A", refTo "#/$defs/A")]) None
               None None None None None [].

(** A reference cycle that passes through [properties]:
    [{type: "object", properties: {next: {$ref: "#/$defs/Node"}},
      $defs: {Node: {type: "object",
                     properties: {next: {$ref: "#/$defs/Node"}}}}}]. *)
Definition linkedNode : JsonSchema :=
  objectOf [("next", refTo "#/$defs/Node")].

Definition linkedDocument : JsonSchema :=
  mkJsonSchema (Some (TSingle "object"))
    (Some [("next", refTo "#/$defs/Node")]) None None None None None None
    (Some [("Node", linkedNode)]) None None None None None None [].

(** The forbidden constructs, at every depth of the schema-valued members
    that an emitted node can have. *)
Fixpoint forbiddenFree (s : JsonSchema) : bool :=
  match s with
  | mkJsonSchema ty props its _ any one all ref defs dfn _ _ _ _ ap _ =>
      match ty with Some (TSet _) => false | _ => true end
      && negb (is_some ref) && negb (is_some any) && negb (is_some one)
      && negb (is_some all) && negb (is_some defs) && negb (is_some dfn)
      && match props with
         | Some ps => forallb (fun kv => let '(_, v) := kv in forbiddenFree v) ps
         | None => true
         end
      && match its with Some i => forbiddenFree i | None => true end
      && match ap with Some (inr a) => forbiddenFree a | _ => true end
  end.

(** The same, without looking into [additionalProperties]. *)
Fixpoint forbiddenFreeOutside (s : JsonSchema) : bool :=
  match s with
  | mkJsonSchema ty props its _ any one all ref defs dfn _ _ _ _ _ _ =>
      match ty with Some (TSet _) => false | _ => true end
      && negb (is_some ref) && negb (is_some any) && negb (is_some one)
      && negb (is_some all) && negb (is_some defs) && negb (is_some dfn)
      && match props with
         | Some ps =>
             forallb (fun kv => let '(_, v) := kv in forbiddenFreeOutside v) ps
         | None => true
         end
      && match its with Some i => forbiddenFreeOutside i | None => true end
  end.

(** [s.includes(pat)] *)
Fixpoint contains (pat s : string) : bool :=
  String.prefix pat s
  || match s with
     | EmptyString => false
     | String _ s' => contains pat s'
     end.

(** Stripping a local prefix, in the words of the design document: a
    reference that starts with [#/$defs/] or [#/definitions/] loses that
    prefix, any other is left as it is. *)
Definition stripLocalPrefix (r : string) : string :=
  if String.prefix "#/$defs/" r then string_drop 8 r
  else if String.prefix "#/definitions/" r then string_drop 14 r
  else r.

(** [{type: "object", properties: {}, additionalProperties: {$ref: r}}] *)
Definition mapOfRefs (r : string) : JsonSchema :=
  with_additionalProperties (Some (inr (refTo r))) (objectOf []).

(** [undefined], [null], booleans, numbers and strings. *)
Definition isPrimitive (v : JsVal) : bool :=
  match v with
  | JUndefined | JNull | JBool _ | JNum _ | JStr _ => true
  | JArr _ | JObj _ | JSchema _ => false
  end.

(** [{type: "object", properties: {x: {type: "number"}, y: {type:
    "number"}}}] *)
Definition Point : JsonSchema :=
  objectOf [("x", ofType "number"); ("y", ofType "number")].

(** A root document with [$defs: {Point: ...}] and a field
    [{$ref: "#/$defs/Point"}]. *)
Definition pointDocument : JsonSchema :=
  mkJsonSchema (Some (TSingle "object"))
    (Some [("origin", refTo "#/$defs/Point")]) None None None None None None
    (Some [("Point", Point)]) None None None None None None [].

(** The simplified options that the walk treats as object variants. *)
Definition objectVariants (f : JsonSchema -> option JsonSchema)
    (options : list JsonSchema) : list JsonSchema :=
  flat_map (fun o => match f o with
                     | Some s => if isObjectOption s then [s] else []
                     | None => []
                     end) options.

Definition seesObjectOption (f : JsonSchema -> option JsonSchema)
    (options : list JsonSchema) : bool :=
  match objectVariants f options with [] => false | _ :: _ => true end.

(** The [required] member as a set, and the names of [properties]. *)
Definition requiredOf (s : JsonSchema) : list string :=
  or_else (required s) [].

Definition propertyNames (s : JsonSchema) : list string :=
  obj_keys (or_else (properties s) []).

(** [{ anyOf: options }] *)
Definition unionOf (options : list JsonSchema) : JsonSchema :=
  mkJsonSchema None None None None (Some options) None None None None None
               None None None None None [].

(** The variants of the design document's example:
    [{type: object, properties: {a: {type: string}}, required: [a]}] and
    [{type: object, properties: {a: {type: string}, b: {type: number}}}]. *)
Definition variantA : JsonSchema :=
  with_required (Some ["a"]) (objectOf [("a", ofType "string")]).

Definition variantAB : JsonSchema :=
  objectOf [("a", ofType "string"); ("b", ofType "number")].

(** [{type: object, properties: {b: {type: number}}, required: [a]}]: [a]
    is required without being declared. *)
Definition variantB_requiring_a : JsonSchema :=
  with_required (Some ["a"]) (objectOf [("b", ofType "number")]).

(** How one element of [tools] is rewritten, in the words of the design
    document: an element that is not an object is carried as it is; an
    object keeps its other own members and gets an [inputSchema], which is
    the simplification (maxDepth 4, depth 0) of the schema it had,
    [{type: object, properties: {}}] if it had none or a falsy value
    ([null], [false], [0], the empty string), and [{type: object}] if it had
    a truthy value that is not a schema, which has none of the members that
    the simplifier reads. *)
Definition toolRewritten (fuel : nat) (tool tool' : JsVal) : Prop :=
  if isPrimitive tool then tool' = tool
  else
    (forall k, k <> "inputSchema" ->
       obj_get k (own_entries tool') = obj_get k (own_entries tool))
    /\ exists s,
         obj_get "inputSchema" (own_entries tool') = Some (JSchema s)
         /\ match js_get "inputSchema" tool with
            | JSchema inputSchema =>
                simplifySchemaForDatabricks fuel inputSchema 4 0 None = Some s
            | v => s = if js_truthy v then ofType "object" else objectOf []
            end.

(** [{result: {tools: [{name: "x", inputSchema: {type: ["string",
    "null"]}}]}}] and what it is rewritten to. *)
Definition listingExample : JsVal :=
  JObj [("result",
         JObj [("tools",
                JArr [JObj [("name", JStr "x");
                            ("inputSchema",
                             JSchema (with_type (Some (TSet ["string"; "null"]))
                                                emptySchema))]])])].

Definition listingExampleRewritten : JsVal :=
  JObj [("result",
         JObj [("tools",
                JArr [JObj [("name", JStr "x");
                            ("inputSchema", JSchema (ofType "string"))]])])].

(** [{jsonrpc: "2.0", id: 1, result: {tools: [{name: "p", inputSchema:
    pointDocument}, "s", {name: "q", inputSchema: null}], nextCursor: "c"}}]
    and what it is rewritten to. *)
Definition listingOf (tools : list JsVal) : JsVal :=
  JObj [("jsonrpc", JStr "2.0"); ("id", JNum 1);
        ("result", JObj [("tools", JArr tools); ("nextCursor", JStr "c")])].

Definition pointListing : JsVal :=
  listingOf [JObj [("name", JStr "p"); ("inputSchema", JSchema pointDocument)];
             JStr "s";
             JObj [("name", JStr "q"); ("inputSchema", JNull)]].

Definition pointListingRewritten : JsVal :=
  listingOf [JObj [("name", JStr "p");
                   ("inputSchema", JSchema (objectOf [("origin", Point)]))];
             JStr "s";
             JObj [("name", JStr "q"); ("inputSchema", JSchema (objectOf []))]].

(** [{result: {tools: ["s"]}}]: an entry that is not an object. *)
Definition stringListing : JsVal :=
  JObj [("result", JObj [("tools", JArr [JStr "s"])])].

(** [{result: {tools: [{name: "x", inputSchema: selfReferential}]}}] *)
Definition cyclicListing : JsVal :=
  JObj [("result",
         JObj [("tools",
                JArr [JObj [("name", JStr "x");
                            ("inputSchema", JSchema selfReferential)]])])].

(** [{anyOf: [{type: "object", properties: {toString: {description:
    "d"}}}]}] *)
Definition toStringUnion : JsonSchema :=
  unionOf [objectOf [("toString", with_description (Some "d") emptySchema)]].

(** What the last branch of the simplifier emits: no structural member, a
    single-tag type, and a node that the branch maps to itself. *)
Definition primShape (s : JsonSchema) : Prop :=
  properties s = None /\ items s = None /\ anyOf s = None /\ oneOf s = None
  /\ allOf s = None /\ dollar_ref s = None /\ additionalProperties s = None
  /\ (forall tags, type s <> Some (TSet tags))
  /\ dollar_defs s = None /\ definitions s = None
  /\ simplifyPrimitive s = s.

(** [{type: "object", properties: ps, required: req, description: desc,
    additionalProperties: ap}] and [{type: "array", items: it, description:
    desc}], the nodes that the object and array branches and the merger
    build. *)
Definition objectNode (ps : Record_ JsonSchema) (req : option (list string))
    (desc : option string) (ap : option (bool + JsonSchema)) : JsonSchema :=
  mkJsonSchema (Some (TSingle "object")) (Some ps) None req None None None
               None None None None None desc None ap [].

Definition arrayNode (it : JsonSchema) (desc : option string) : JsonSchema :=
  mkJsonSchema (Some (TSingle "array")) None (Some it) None None None None
               None None None None None desc None None [].

(** [NF maxDepth strict h d s]: [s] is a node that the simplifier can return
    at depth [d], or that it can store in a table of properties at that
    depth, of height below [h].  With [strict], the opaque fallback occurs
    only beyond [maxDepth] and no property is an inherited member. *)
Inductive NF (maxDepth : Z) (strict : bool)
  : nat -> Z -> JsonSchema -> Prop :=
| NF_overflow h d :
    d > maxDepth -> NF maxDepth strict (S h) d opaque
| NF_opaque h d :
    strict = false -> d <= maxDepth -> NF maxDepth strict (S h) d opaque
| NF_inherited h d :
    strict = false -> d <= maxDepth ->
    NF maxDepth strict (S h) d inheritedMember
| NF_primitive h d s :
    d <= maxDepth -> primShape s -> NF maxDepth strict (S h) d s
| NF_object h d ps req desc ap :
    d <= maxDepth -> NoDup (obj_keys ps) -> ~ In "__proto__" (obj_keys ps) ->
    Forall (fun kv => NF maxDepth strict h (d + 1) (snd kv)) ps ->
    (desc = None \/ truthy_string desc = true) ->
    NF maxDepth strict (S h) d (objectNode ps req desc ap)
| NF_array h d it desc :
    d <= maxDepth -> NF maxDepth strict h (d + 1) it ->
    (desc = None \/ truthy_string desc = true) ->
    NF maxDepth strict (S h) d (arrayNode it desc).

(** No node with [additionalProperties] and without [properties] (among
    returned nodes: no opaque fallback) at a depth up to [maxDepth], along
    [properties] and [items]. *)
Fixpoint opaqueFree (maxDepth : Z) (d : Z) (s : JsonSchema) {struct s}
  : bool :=
  match s with
  | mkJsonSchema _ props its _ _ _ _ _ _ _ _ _ _ _ ap _ =>
      (d >? maxDepth)
      || (negb (negb (is_some props) && is_some ap)
          && match props with
             | Some ps =>
                 forallb (fun kv => let '(_, v) := kv in
                                    opaqueFree maxDepth (d + 1) v) ps
             | None => true
             end
          && match its with
             | Some i => opaqueFree maxDepth (d + 1) i
             | None => true
             end)
  end.

(** A node without any member. *)
Definition memberLess (s : JsonSchema) : bool :=
  match schema_keys s with [] => true | _ :: _ => false end.

(** No node without members, along [properties] and [items]: no property
    holds a member that the merger inherited from [Object.prototype]. *)
Fixpoint inheritedFree (s : JsonSchema) : bool :=
  negb (memberLess s)
  && match s with
     | mkJsonSchema _ props its _ _ _ _ _ _ _ _ _ _ _ _ _ =>
         match props with
         | Some ps =>
             forallb (fun kv => let '(_, v) := kv in inheritedFree v) ps
         | None => true
         end
         && match its with
            | Some i => inheritedFree i
            | None => true
            end
     end.

(** No property named [__proto__], along [properties] and [items]. *)
Fixpoint protoFree (s : JsonSchema) : bool :=
  match s with
  | mkJsonSchema _ props its _ _ _ _ _ _ _ _ _ _ _ _ _ =>
      match props with
      | Some ps =>
          forallb (fun kv => let '(k, v) := kv in
                             negb (String.eqb k "__proto__") && protoFree v)
                  ps
      | None => true
      end
      && match its with
         | Some i => protoFree i
         | None => true
         end
  end.

(** The entries that become own properties when they are assigned to a
    fresh table one by one: all but one named [__proto__]. *)
Definition withoutProto (ps : Record_ JsonSchema) : Record_ JsonSchema :=
  filter (fun kv => negb (String.eqb (fst kv) "__proto__")) ps.

(** The invariant of the tables that the loops build. *)
Definition NFtable (maxDepth : Z) (h : nat) (d : Z) (t : Record_ JsonSchema)
  : Prop :=
  NoDup (obj_keys t) /\ ~ In "__proto__" (obj_keys t)
  /\ Forall (fun kv => NF maxDepth false h d (snd kv)) t.

(* ------------------------------------------------------------------ *)
(** * Requests: classification and the body handed to the transport *)

(** [export function isToolsListRequest(body)] *)
Definition isToolsListRequest (body : JsVal) : bool :=
  if negb (js_truthy body) || negb (String.eqb (typeof body) "object")
  then false
  else
    let req := body in
    match js_get "method" req with
    | JStr m => String.eqb m "tools/list"
    | _ => false
    end.

(** [delete o[k]] *)
Fixpoint obj_delete (A : Type) (k : string) (o : Record_ A) : Record_ A :=
  match o with
  | [] => []
  | (k', v) :: rest =>
      if String.eqb k k' then obj_delete k rest
      else (k', v) :: obj_delete k rest
  end.

(** Truthiness and [typeof v === 'object'] of a parsed JSON value. *)
Definition json_truthy (j : Json) : bool :=
  match j with
  | LNull => false
  | LBool b => b
  | LNum n => negb (n =? 0)
  | LStr s => negb (String.eqb s "")
  | LArr _ | LObj _ => true
  end.

Definition json_typeof_object (j : Json) : bool :=
  match j with
  | LNull | LArr _ | LObj _ => true
  | LBool _ | LNum _ | LStr _ => false
  end.

(** [Object.keys(j).length] *)
Definition json_key_count (j : Json) : nat :=
  match j with
  | LObj fields => length fields
  | LArr l => length l
  | _ => O
  end.

Definition extraFields : list string :=
  ["catalog"; "schema"; "functionName"; "indexName"; "genieSpaceId"].

Definition nullableFields : list string :=
  ["name"; "arguments"; "cursor"; "_meta"].

(** [for (const field of fields) if (field in o) delete o[field]] *)
Definition deleteFields (fields : list string) (o : Record_ Json)
    : Record_ Json :=
  fold_left (fun o field =>
               if is_some (obj_get field o) then obj_delete field o else o)
            fields o.

(** [for (const field of fields)
       if (field in o && o[field] === null) delete o[field]] *)
Definition deleteNullFields (fields : list string) (o : Record_ Json)
    : Record_ Json :=
  fold_left (fun o field =>
               match obj_get field o with
               | Some LNull => obj_delete field o
               | _ => o
               end)
            fields o.

(** The body that [createMcpServer] (express.ts, lines 155-186) hands to
    [transport.handleRequest]: [req.body] as [express.json()] parsed it
    ([None] when there is none), on which
    [JSON.parse(JSON.stringify(...))] is the identity.  An array has none of
    the fields tested and no [params]. *)
Definition sanitizeBody (body : option Json) : option Json :=
  match body with
  | None => None
  | Some bodyToPass =>
      if negb (json_truthy bodyToPass)
         || negb (json_typeof_object bodyToPass)
         || Nat.eqb (json_key_count bodyToPass) 0
      then Some bodyToPass
      else
        match bodyToPass with
        | LObj fields =>
            let fields := deleteFields extraFields fields in
            let fields :=
              match obj_get "params" fields with
              | Some (LObj params) =>
                  obj_set "params"
                    (LObj (deleteNullFields nullableFields params)) fields
              | _ => fields
              end in
            let fields :=
              match obj_get "params" fields with
              | Some LNull => obj_delete "params" fields
              | _ => fields
              end in
            Some (LObj fields)
        | _ => Some bodyToPass
        end
  end.

(** [v === null] for a member that may be absent. *)
Definition isNullMember (v : option Json) : bool :=
  match v with Some LNull => true | _ => false end.

(** A body that carries none of the Databricks fields, whose [params] is not
    [null] and, if an object, has no [null] among the nullable fields. *)
Definition cleanBody (b : Json) : bool :=
  match b with
  | LObj fields =>
      forallb (fun k => negb (is_some (obj_get k fields))) extraFields
      && match obj_get "params" fields with
         | Some LNull => false
         | Some (LObj params) =>
             forallb (fun k => negb (isNullMember (obj_get k params)))
                     nullableFields
         | _ => true
         end
  | _ => true
  end.

(* ------------------------------------------------------------------ *)
(** * Measures and predicates on schemas *)

(** How deep a node nests along [properties] and [items]. *)
Fixpoint nesting (s : JsonSchema) : nat :=
  match s with
  | mkJsonSchema _ props its _ _ _ _ _ _ _ _ _ _ _ _ _ =>
      Nat.max
        (match props with
         | Some ps =>
             S (fold_right (fun kv m => Nat.max (let '(_, v) := kv in
                                                 nesting v) m) O ps)
         | None => O
         end)
        (match its with Some i => S (nesting i) | None => O end)
  end.

(** The nodes that the simplifier can be called on from a node: the values
    of [properties], [items], and the options of [anyOf], [oneOf],
    [allOf]. *)
Definition childrenOf (s : JsonSchema) : list JsonSchema :=
  (map snd (or_else (properties s) [])
   ++ match items s with Some i => [i] | None => [] end
   ++ or_else (anyOf s) [] ++ or_else (oneOf s) [] ++ or_else (allOf s) [])%list.

(** The height of a node along [childrenOf], at least 1. *)
Fixpoint callDepth (s : JsonSchema) : nat :=
  match s with
  | mkJsonSchema _ props its _ any one all _ _ _ _ _ _ _ _ _ =>
      S (Nat.max
           (match props with
            | Some ps =>
                fold_right (fun kv m => Nat.max (let '(_, v) := kv in
                                                 callDepth v) m) O ps
            | None => O
            end)
           (Nat.max
              (match its with Some i => callDepth i | None => O end)
              (Nat.max
                 (match any with
                  | Some l => fold_right (fun x m => Nat.max (callDepth x) m) O l
                  | None => O
                  end)
                 (Nat.max
                    (match one with
                     | Some l =>
                         fold_right (fun x m => Nat.max (callDepth x) m) O l
                     | None => O
                     end)
                    (match all with
                     | Some l =>
                         fold_right (fun x m => Nat.max (callDepth x) m) O l
                     | None => O
                     end)))))
  end.

(** No node along [childrenOf] has a (non-empty) [$ref]. *)
Fixpoint refFree (s : JsonSchema) : bool :=
  match s with
  | mkJsonSchema _ props its _ any one all ref _ _ _ _ _ _ _ _ =>
      negb (truthy_string ref)
      && match props with
         | Some ps => forallb (fun kv => let '(_, v) := kv in refFree v) ps
         | None => true
         end
      && match its with Some i => refFree i | None => true end
      && match any with Some l => forallb refFree l | None => true end
      && match one with Some l => forallb refFree l | None => true end
      && match all with Some l => forallb refFree l | None => true end
  end.

(** [{ oneOf: options }] and [{ allOf: options }] *)
Definition oneOfNode (options : list JsonSchema) : JsonSchema :=
  mkJsonSchema None None None None None (Some options) None None None None
               None None None None None [].

Definition allOfNode (options : list JsonSchema) : JsonSchema :=
  mkJsonSchema None None None None None None (Some options) None None None
               None None None None None [].

(** The options that the simplifier merges for a node: those of [anyOf],
    else those of [oneOf], else those of [allOf]. *)
Definition mergedOptions (s : JsonSchema) : option (list JsonSchema) :=
  match anyOf s, oneOf s, allOf s with
  | Some o, _, _ => Some o
  | None, Some o, _ => Some o
  | None, None, Some o => Some o
  | None, None, None => None
  end.

(* ------------------------------------------------------------------ *)
(** * Lemmas on ordered maps and strings *)

Section ObjectLemmas.
Variable A : Type.
Implicit Types (o : Record_ A) (k : string) (v : A).

Lemma obj_get_set_same k v o : obj_get k (obj_set k v o) = Some v.
Proof.
  induction o as [|[k' v'] o IH]; simpl.
  - now rewrite String.eqb_refl.
  - destruct (String.eqb k k') eqn:E; simpl.
    + now rewrite String.eqb_refl.
    + now rewrite E.
Qed.

Lemma obj_get_set_other k k' v o :
  k <> k' -> obj_get k (obj_set k' v o) = obj_get k o.
Proof.
  intros N. induction o as [|[k0 v0] o IH]; simpl.
  - destruct (String.eqb k k') eqn:E; [|reflexivity].
    apply String.eqb_eq in E. contradiction.
  - destruct (String.eqb k' k0) eqn:E; simpl.
    + apply String.eqb_eq in E. subst k0.
      destruct (String.eqb k k') eqn:E'; [|reflexivity].
      apply String.eqb_eq in E'. contradiction.
    + now rewrite IH.
Qed.

Lemma obj_get_in_keys k o :
  is_some (obj_get k o) = true <-> In k (obj_keys o).
Proof.
  induction o as [|[k' v'] o IH]; simpl.
  - split; [discriminate | tauto].
  - destruct (String.eqb k k') eqn:E.
    + apply String.eqb_eq in E. subst. simpl. tauto.
    + apply String.eqb_neq in E. rewrite IH. split; [tauto|].
      intros [H|H]; [congruence | assumption].
Qed.

Lemma obj_keys_set k v o :
  forall x, In x (obj_keys (obj_set k v o)) <-> x = k \/ In x (obj_keys o).
Proof.
  intros x. induction o as [|[k' v'] o IH]; simpl.
  - intuition.
  - destruct (String.eqb k k') eqn:E; simpl.
    + apply String.eqb_eq in E. subst. intuition.
    + rewrite IH. intuition.
Qed.

Lemma obj_set_NoDup k v o :
  NoDup (obj_keys o) -> NoDup (obj_keys (obj_set k v o)).
Proof.
  induction o as [|[k' v'] o IH]; simpl; intros H.
  - constructor; [simpl; tauto | constructor].
  - destruct (String.eqb k k') eqn:E; simpl.
    + apply String.eqb_eq in E. now subst.
    + inversion H as [|? ? Hn Hd]; subst. constructor; [|auto].
      rewrite obj_keys_set. apply String.eqb_neq in E.
      intros [->|?]; [congruence | contradiction].
Qed.

(** Assigning a new key appends it. *)
Lemma obj_set_fresh k v o :
  ~ In k (obj_keys o) -> obj_set k v o = (o ++ [(k, v)])%list.
Proof.
  induction o as [|[k' v'] o IH]; simpl; intros H; [reflexivity|].
  destruct (String.eqb k k') eqn:E.
  - apply String.eqb_eq in E. subst. tauto.
  - rewrite IH; tauto.
Qed.
End ObjectLemmas.

Lemma replace_first_absent pat s :
  contains pat s = false -> replace_first pat s = s.
Proof.
  induction s as [|c s IH]; simpl; intros H;
    apply orb_false_iff in H; destruct H as [H1 H2].
  - destruct pat; [discriminate | reflexivity].
  - change (String.prefix pat (String c s)) with
      (String.prefix pat (String c s)) in H1.
    destruct pat as [|p pat]; [discriminate|].
    simpl in H1 |- *. rewrite H1. now rewrite (IH H2).
Qed.

(* ------------------------------------------------------------------ *)
(** * Type Normalizer: properties *)

(** C7: [normalizeType] is a total function; a single (non-empty) tag is
    returned unchanged; a set of tags yields its first tag that is not
    [null], whatever [null]s precede it; a set holding only [null] tags
    yields [null]; and [{type: ["number","string","null"]}] simplifies to
    [{type: "number"}]. *)
Theorem normalizeType_policy :
  (forall tag, tag <> "" -> normalizeType (Some (TSingle tag)) = Some tag)
  /\ (forall nulls tag rest,
        Forall (fun t => t = "null") nulls -> tag <> "null" ->
        normalizeType (Some (TSet (nulls ++ tag :: rest))) = Some tag)
  /\ (forall nulls,
        Forall (fun t => t = "null") nulls ->
        normalizeType (Some (TSet nulls)) = Some "null")
  /\ (forall tags, exists tag, normalizeType (Some (TSet tags)) = Some tag)
  /\ (forall fuel,
        simplify (S fuel) 4
          (with_type (Some (TSet ["number"; "string"; "null"])) emptySchema)
        = Some (ofType "number")).
Proof.
  repeat split.
  - intros tag H. simpl. destruct (String.eqb tag "") eqn:E; [|reflexivity].
    apply String.eqb_eq in E. contradiction.
  - intros nulls tag rest Hn Ht. unfold normalizeType.
    induction Hn as [|x l Hx _ IH]; simpl.
    + apply String.eqb_neq in Ht. now rewrite Ht.
    + subst x. simpl. exact IH.
  - intros nulls Hn. unfold normalizeType.
    induction Hn as [|x l Hx _ IH]; simpl; [reflexivity|].
    subst x. simpl. exact IH.
  - intros tags. unfold normalizeType.
    destruct (filter _ tags); eauto.
Qed.

Lemma normalizeType_policy_witness :
  normalizeType (Some (TSingle "string")) = Some "string"
  /\ normalizeType (Some (TSet ["null"; "number"; "string"])) = Some "number"
  /\ normalizeType (Some (TSet ["null"; "null"])) = Some "null".
Proof.
  destruct normalizeType_policy as (H1 & H2 & H3 & _).
  split; [|split].
  - apply H1. discriminate.
  - apply (H2 ["null"] "number" ["string"]).
    + repeat constructor.
    + discriminate.
  - apply H3. repeat constructor.
Defined.

(* ------------------------------------------------------------------ *)
(** * Response Interceptor: passthrough *)

Lemma not_classified_without_result message :
  js_truthy (js_get "result" message) = false ->
  isToolsListResponse message = false.
Proof.
  intros H. unfold isToolsListResponse. rewrite H.
  destruct (negb (js_truthy message) || _); [reflexivity|].
  now rewrite orb_true_r.
Qed.

Lemma not_classified_without_tools message :
  isArray (js_get "tools" (js_get "result" message)) = false ->
  isToolsListResponse message = false.
Proof.
  intros H. unfold isToolsListResponse. rewrite H.
  now repeat match goal with |- context [if ?c then _ else _] => destruct c end.
Qed.

(** C8: a message that is not classified as a tool-listing response (in
    particular one without a [result] member, or whose [result] has no
    [tools] array) is handed to the underlying send as it is. *)
Theorem wrappedSend_passthrough (Outcome : Type)
    (originalSend : JsVal -> Outcome) (fuel : nat) (message : JsVal) :
  isToolsListResponse message = false
  \/ js_get "result" message = JUndefined
  \/ isArray (js_get "tools" (js_get "result" message)) = false ->
  wrappedSend originalSend fuel message = Some (originalSend message).
Proof.
  intros H.
  assert (C : isToolsListResponse message = false).
  { destruct H as [H|[H|H]].
    - exact H.
    - apply not_classified_without_result. now rewrite H.
    - now apply not_classified_without_tools. }
  unfold wrappedSend. now rewrite C.
Qed.

Lemma wrappedSend_passthrough_witness :
  wrappedSend (fun m => m) 0
    (JObj [("jsonrpc", JStr "2.0"); ("id", JNum 1);
           ("result", JObj [("content", JArr [])])])
  = Some (JObj [("jsonrpc", JStr "2.0"); ("id", JNum 1);
                ("result", JObj [("content", JArr [])])]).
Proof.
  apply (wrappedSend_passthrough (fun m => m) 0). right. right. reflexivity.
Defined.

(* ------------------------------------------------------------------ *)
(** * Response Interceptor: elements of [tools] that are not objects *)

Lemma simplifyTool_primitive fuel tool :
  isPrimitive tool = true -> simplifyTool fuel tool = Some tool.
Proof.
  destruct tool; simpl; try discriminate; intros _; unfold simplifyTool; simpl;
    try reflexivity.
  - destruct b; reflexivity.
  - destruct (n =? 0); reflexivity.
  - destruct (String.eqb s ""); reflexivity.
Qed.

Lemma mapM_nth_error (A B : Type) (f : A -> option B) xs ys i x :
  mapM f xs = Some ys -> nth_error xs i = Some x ->
  exists y, nth_error ys i = Some y /\ f x = Some y.
Proof.
  revert ys i. induction xs as [|a xs IH]; intros ys i H N.
  - destruct i; discriminate.
  - simpl in H. destruct (f a) as [b|] eqn:Fa; [|discriminate].
    destruct (mapM f xs) as [bs|] eqn:M; [|discriminate].
    injection H as <-. destruct i as [|i]; simpl in *.
    + injection N as <-. eauto.
    + eapply IH; eauto.
Qed.

Lemma mapM_length (A B : Type) (f : A -> option B) xs ys :
  mapM f xs = Some ys -> length ys = length xs.
Proof.
  revert ys. induction xs as [|a xs IH]; intros ys H; simpl in H.
  - now injection H as <-.
  - destruct (f a); [|discriminate]. destruct (mapM f xs); [|discriminate].
    injection H as <-. simpl. now rewrite (IH l).
Qed.

Lemma mapM_total (A B : Type) (f : A -> option B) xs :
  (forall x, In x xs -> exists y, f x = Some y) ->
  exists ys, mapM f xs = Some ys.
Proof.
  induction xs as [|a xs IH]; intros H; simpl; [eauto|].
  destruct (H a (or_introl eq_refl)) as [b ->].
  destruct IH as [bs ->]; [intros; apply H; now right|]. eauto.
Qed.

(** What [simplifyToolsListResponse] returns on a classified message. *)
Lemma simplifyToolsListResponse_classified fuel message :
  isToolsListResponse message = true ->
  exists tools,
    js_get "tools" (js_get "result" message) = JArr tools
    /\ simplifyToolsListResponse fuel message
       = match mapM (simplifyTool fuel) tools with
         | None => None
         | Some simplifiedTools =>
             Some (JObj (obj_set "result"
                           (JObj (obj_set "tools" (JArr simplifiedTools)
                                    (own_entries (js_get "result" message))))
                           (own_entries message)))
         end.
Proof.
  unfold isToolsListResponse, simplifyToolsListResponse.
  destruct (negb (js_truthy message) || _); [discriminate|].
  destruct (js_truthy (js_get "method" message)); [discriminate|]. simpl.
  destruct (js_truthy (js_get "result" message)) eqn:T; [|discriminate]. simpl.
  destruct (js_get "tools" (js_get "result" message)) as [| | | | |tools| |] eqn:G;
    try discriminate.
  intros _. exists tools. split; [reflexivity|].
  assert (O : String.eqb (typeof (js_get "result" message)) "object" = true).
  { destruct (js_get "result" message); try reflexivity;
      unfold js_get in G; simpl in G; discriminate. }
  rewrite O. reflexivity.
Qed.

(** C10: in a classified message, an element of [result.tools] that is not
    an object ([null], a string, a number, ...) is returned as it is by the
    callback, whatever the fuel, and sits unchanged at the same index of the
    rewritten [tools]. *)
Theorem primitive_tool_carried_through (fuel : nat) (message out : JsVal)
    (tools : list JsVal) (i : nat) (tool : JsVal) :
  isToolsListResponse message = true ->
  js_get "tools" (js_get "result" message) = JArr tools ->
  nth_error tools i = Some tool ->
  isPrimitive tool = true ->
  simplifyToolsListResponse fuel message = Some out ->
  (forall fuel', simplifyTool fuel' tool = Some tool)
  /\ exists tools',
       js_get "tools" (js_get "result" out) = JArr tools'
       /\ length tools' = length tools
       /\ nth_error tools' i = Some tool.
Proof.
  intros C G N P R.
  split; [intros; now apply simplifyTool_primitive|].
  destruct (simplifyToolsListResponse_classified fuel message C)
    as (tools0 & G0 & E).
  rewrite G in G0. injection G0 as <-. rewrite E in R.
  destruct (mapM (simplifyTool fuel) tools) as [tools'|] eqn:M; [|discriminate].
  injection R as <-. exists tools'.
  unfold js_get at 2. simpl. rewrite obj_get_set_same. simpl.
  unfold js_get. simpl. rewrite obj_get_set_same. simpl.
  split; [reflexivity|]. split; [eapply mapM_length; eauto|].
  destruct (@mapM_nth_error _ _ _ _ _ _ _ M N) as (y & Ny & Fy).
  rewrite simplifyTool_primitive in Fy by assumption. congruence.
Qed.

Lemma primitive_tool_carried_through_witness :
  (forall fuel', simplifyTool fuel' JNull = Some JNull)
  /\ exists tools',
       js_get "tools"
         (js_get "result"
            (JObj [("result", JObj [("tools", JArr [JStr "a"; JNull])])]))
       = JArr tools'
       /\ length tools' = length [JStr "a"; JNull]
       /\ nth_error tools' 1 = Some JNull.
Proof.
  apply (@primitive_tool_carried_through 0
           (JObj [("result", JObj [("tools", JArr [JStr "a"; JNull])])])
           (JObj [("result", JObj [("tools", JArr [JStr "a"; JNull])])])
           [JStr "a"; JNull] 1 JNull); reflexivity.
Defined.

(* ------------------------------------------------------------------ *)
(** * Schema Simplifier: reference cycles *)

Lemma refTo_A_diverges fuel maxDepth currentDepth :
  (currentDepth >? maxDepth) = false ->
  simplifySchemaForDatabricks fuel (refTo "#/$defs/A") maxDepth currentDepth
    (Some [("A", refTo "#/$defs/A")]) = None.
Proof.
  intros D. induction fuel as [|fuel IH]; [reflexivity|].
  simpl. unfold simplifyBody. rewrite D. exact IH.
Qed.

(** C2: on the node [{$ref: "#/$defs/A", $defs: {A: {$ref: "#/$defs/A"}}}]
    the simplifier follows the reference at the same depth again and again:
    no amount of fuel (nesting of calls) makes it return, although the depth
    never exceeds [maxDepth]. *)
Theorem selfReferential_never_returns :
  forall fuel, simplify fuel 4 selfReferential = None.
Proof.
  intros [|fuel]; [reflexivity|].
  unfold simplify. simpl.
  apply (refTo_A_diverges fuel 4 0). reflexivity.
Qed.

(** A cycle that passes through [properties] is cut by the depth guard. *)
Lemma linkedDocument_returns :
  exists s, simplify 11 4 linkedDocument = Some s
            /\ opaqueFree 4 0 s = true /\ forbiddenFree s = true.
Proof. eexists. split; [reflexivity|]. split; reflexivity. Qed.

(* ------------------------------------------------------------------ *)
(** * Schema Simplifier: what is carried through *)

(** C1: the object branch copies [additionalProperties] as it is, so a
    schema-valued one keeps its [$ref]: the node returned for
    [{type: "object", properties: {}, additionalProperties: {$ref:
    "#/$defs/X"}}] is that same node, which is not free of the forbidden
    constructs. *)
Theorem additionalProperties_keeps_ref :
  forall fuel,
    simplify (S fuel) 4 (mapOfRefs "#/$defs/X")
    = Some (mapOfRefs "#/$defs/X")
    /\ forbiddenFree (mapOfRefs "#/$defs/X") = false.
Proof.
  intros fuel. split; reflexivity.
Qed.

(* ------------------------------------------------------------------ *)
(** * Schema Simplifier: reference resolution *)

Lemma dollar_ref_schemaToProcess (schema : JsonSchema) :
  dollar_ref (schemaToProcessOf schema) = dollar_ref schema.
Proof. unfold schemaToProcessOf. destruct (type schema) as [[|]|]; reflexivity. Qed.

Lemma simplify_ref_step fuel schema maxDepth currentDepth definitions' r :
  dollar_ref schema = Some r -> r <> "" ->
  (currentDepth >? maxDepth) = false ->
  simplifySchemaForDatabricks (S fuel) schema maxDepth currentDepth definitions'
  = match js_lookup (refPathOf r) (tableOf schema definitions') with
    | Some refSchema =>
        simplifySchemaForDatabricks fuel refSchema maxDepth currentDepth
          (Some (tableOf schema definitions'))
    | None => Some opaque
    end.
Proof.
  intros R N D. simpl. unfold simplifyBody. rewrite D.
  rewrite dollar_ref_schemaToProcess, R. simpl.
  apply String.eqb_neq in N. rewrite N. reflexivity.
Qed.

Lemma simplify_depth_guard fuel schema maxDepth currentDepth definitions' :
  (currentDepth >? maxDepth) = true ->
  simplifySchemaForDatabricks (S fuel) schema maxDepth currentDepth definitions'
  = Some opaque.
Proof. intros D. simpl. unfold simplifyBody. now rewrite D. Qed.

(** An inherited member has none of the members that the simplifier reads:
    within the depth bound it is taken by the last branch. *)
Lemma simplify_inheritedMember fuel maxDepth currentDepth definitions' :
  (currentDepth >? maxDepth) = false ->
  simplifySchemaForDatabricks (S fuel) inheritedMember maxDepth currentDepth
    definitions'
  = Some (ofType "object").
Proof. intros D. simpl. unfold simplifyBody. now rewrite D. Qed.

(** The three outcomes of a reference whose name is [name]: the table has
    it; the table lacks it and [Object.prototype] has it; neither has it. *)
Lemma simplify_ref_cases fuel schema maxDepth currentDepth definitions' r :
  dollar_ref schema = Some r -> r <> "" ->
  simplifySchemaForDatabricks (S (S fuel)) schema maxDepth currentDepth
    definitions'
  = match obj_get (refPathOf r) (tableOf schema definitions') with
    | Some refSchema =>
        simplifySchemaForDatabricks (S fuel) refSchema maxDepth currentDepth
          (Some (tableOf schema definitions'))
    | None =>
        if isObjectPrototypeMember (refPathOf r)
           && negb (currentDepth >? maxDepth)
        then Some (ofType "object")
        else Some opaque
    end.
Proof.
  intros R N. destruct (currentDepth >? maxDepth) eqn:D.
  - rewrite simplify_depth_guard by assumption.
    destruct (obj_get _ _).
    + now rewrite simplify_depth_guard.
    + now rewrite andb_false_r.
  - rewrite (@simplify_ref_step (S fuel) _ _ _ definitions' _ R N D).
    unfold js_lookup.
    destruct (obj_get _ _); [reflexivity|].
    destruct (isObjectPrototypeMember _); [|reflexivity].
    now apply simplify_inheritedMember.
Qed.

Lemma replace_first_unfold pat s :
  replace_first pat s
  = if String.prefix pat s then string_drop (String.length pat) s
    else match s with
         | EmptyString => EmptyString
         | String c s' => String c (replace_first pat s')
         end.
Proof. destruct s; reflexivity. Qed.

Lemma prefix_append pat s : String.prefix pat (pat ++ s) = true.
Proof.
  induction pat as [|c pat IH]; simpl; [now destruct s|].
  destruct (ascii_dec c c); [exact IH | congruence].
Qed.

Lemma string_drop_append pat s : string_drop (String.length pat) (pat ++ s) = s.
Proof. induction pat as [|c pat IH]; simpl; [reflexivity | exact IH]. Qed.

Lemma replace_first_prefix pat s : replace_first pat (pat ++ s) = s.
Proof.
  rewrite replace_first_unfold, prefix_append. apply string_drop_append.
Qed.

Lemma contains_definitions_prefix name :
  contains "#/$defs/" name = false ->
  contains "#/$defs/" ("#/definitions/" ++ name) = false.
Proof. intros H. simpl. exact H. Qed.

Lemma refPath_local_prefix name :
  contains "#/$defs/" name = false ->
  contains "#/definitions/" name = false ->
  refPathOf ("#/$defs/" ++ name) = name
  /\ refPathOf ("#/definitions/" ++ name) = name.
Proof.
  intros H1 H2. unfold refPathOf. split.
  - rewrite replace_first_prefix. now apply replace_first_absent.
  - rewrite (replace_first_absent "#/$defs/" ("#/definitions/" ++ name)).
    + apply replace_first_prefix.
    + now apply contains_definitions_prefix.
Qed.

(** C6, as it holds: a node with a non-empty [$ref] is resolved by removing
    the first occurrence of [#/$defs/] and then of [#/definitions/] from the
    reference (for [#/$defs/name] and [#/definitions/name], where [name]
    holds neither marker, this strips the prefix) and reading the name from
    the reference table.  When the table has the name, the result is what
    the referenced node simplifies to at the same depth.  When the table
    lacks it and it does not name a member of [Object.prototype], the result
    is the opaque fallback.  (When the table lacks it and [Object.prototype]
    has it, the read finds the inherited member and the result is
    [{type: "object"}], unless the depth guard applies.)  The [Point]
    document simplifies its field to the [Point] node. *)
Theorem ref_resolution (fuel : nat) (schema : JsonSchema)
    (maxDepth currentDepth : Z) (definitions' : option (Record_ JsonSchema))
    (r : string) :
  dollar_ref schema = Some r -> r <> "" ->
  simplifySchemaForDatabricks (S (S fuel)) schema maxDepth currentDepth
    definitions'
  = match obj_get (refPathOf r) (tableOf schema definitions') with
    | Some refSchema =>
        simplifySchemaForDatabricks (S fuel) refSchema maxDepth currentDepth
          (Some (tableOf schema definitions'))
    | None =>
        if isObjectPrototypeMember (refPathOf r)
           && negb (currentDepth >? maxDepth)
        then Some (ofType "object")
        else Some opaque
    end
  /\ (forall name,
        contains "#/$defs/" name = false ->
        contains "#/definitions/" name = false ->
        refPathOf ("#/$defs/" ++ name) = name
        /\ refPathOf ("#/definitions/" ++ name) = name)
  /\ simplify (S (S (S (S fuel)))) 4 pointDocument
     = Some (objectOf [("origin", Point)]).
Proof.
  intros R N. split; [|split].
  - now apply simplify_ref_cases.
  - apply refPath_local_prefix.
  - reflexivity.
Qed.

Lemma ref_resolution_witness :
  (simplifySchemaForDatabricks 3 (refTo "#/definitions/Point") 4 1
     (Some [("Point", Point)])
   = simplifySchemaForDatabricks 2 Point 4 1 (Some [("Point", Point)])
   /\ simplifySchemaForDatabricks 2 Point 4 1 (Some [("Point", Point)])
      = Some Point)
  /\ refPathOf "#/$defs/Point" = "Point"
  /\ simplifySchemaForDatabricks 2 (refTo "#/$defs/Missing") 4 0 None
     = Some opaque
  /\ simplifySchemaForDatabricks 2 (refTo "#/$defs/toString") 4 0
       (Some [("Point", Point)])
     = Some (ofType "object").
Proof.
  split; [split|split; [|split]].
  - apply (@ref_resolution 1 (refTo "#/definitions/Point") 4 1
             (Some [("Point", Point)]) "#/definitions/Point").
    + reflexivity.
    + discriminate.
  - reflexivity.
  - reflexivity.
  - apply (@ref_resolution 0 (refTo "#/$defs/Missing") 4 0 None
             "#/$defs/Missing").
    + reflexivity.
    + discriminate.
  - apply (@ref_resolution 0 (refTo "#/$defs/toString") 4 0
             (Some [("Point", Point)]) "#/$defs/toString").
    + reflexivity.
    + discriminate.
Defined.

(** C6 as stated fails where the marker is not a prefix: with the table
    [{extA: {type: "string"}}] the node [{$ref: "ext#/$defs/A"}] is resolved
    to [{type: "string"}], while the reference, which has no local prefix to
    strip, is not a name of the table.  It also fails for an empty [$ref],
    which is not looked up at all: [{$ref: ""}] gives [{type: "object"}],
    not the opaque fallback.  And it fails for a name that the table lacks
    and [Object.prototype] has: with an empty table,
    [{$ref: "#/$defs/constructor"}] gives [{type: "object"}], not the opaque
    fallback. *)
Lemma ref_marker_inside_counterexample :
  (simplifySchemaForDatabricks 2 (refTo "ext#/$defs/A") 4 0
     (Some [("extA", ofType "string")])
   = Some (ofType "string")
   /\ match obj_get (stripLocalPrefix "ext#/$defs/A")
              [("extA", ofType "string")] with
      | Some refSchema =>
          simplifySchemaForDatabricks 1 refSchema 4 0
            (Some [("extA", ofType "string")])
      | None => Some opaque
      end = Some opaque
   /\ ofType "string" <> opaque)
  /\ (simplifySchemaForDatabricks 2 (refTo "") 4 0 None
      = Some (ofType "object")
      /\ obj_get (stripLocalPrefix "") (tableOf (refTo "") None) = None
      /\ ofType "object" <> opaque)
  /\ (simplifySchemaForDatabricks 2 (refTo "#/$defs/constructor") 4 0 None
      = Some (ofType "object")
      /\ obj_get (stripLocalPrefix "#/$defs/constructor")
           (tableOf (refTo "#/$defs/constructor") None) = None
      /\ ofType "object" <> opaque).
Proof.
  split; [|split];
    (split; [reflexivity|]; split; [reflexivity | discriminate]).
Qed.

(* ------------------------------------------------------------------ *)
(** * Option Merger: the walk *)

Section Walk.
Variable f : JsonSchema -> option JsonSchema.

Lemma objectVariants_app xs ys :
  objectVariants f (xs ++ ys)%list
  = (objectVariants f xs ++ objectVariants f ys)%list.
Proof. unfold objectVariants. apply flat_map_app. Qed.

Lemma mergeLoop_app pre rest st :
  mergeLoop f (pre ++ rest) st
  = match mergeLoop f pre st with
    | Some (inr st') => mergeLoop f rest st'
    | other => other
    end.
Proof.
  revert st. induction pre as [|o pre IH]; intros st; simpl; [reflexivity|].
  destruct (f o) as [s|]; [|reflexivity].
  destruct (isObjectOption s); [apply IH|].
  destruct (truthy_type (type s) && negb (hasObjectOptions st));
    [reflexivity | apply IH].
Qed.

(** What a completed walk has accumulated. *)
Lemma mergeLoop_completed options : forall st st',
  mergeLoop f options st = Some (inr st') ->
  requiredSets st'
  = (requiredSets st
     ++ map (fun v => Set_of (or_else (required v) []))
            (objectVariants f options))%list
  /\ hasObjectOptions st' = hasObjectOptions st || seesObjectOption f options
  /\ mergedProperties st'
     = fold_left (fun m v => mergeEntries (or_else (properties v) []) m)
                 (objectVariants f options) (mergedProperties st).
Proof.
  unfold seesObjectOption.
  induction options as [|o options IH]; intros st st' H; simpl in H.
  - injection H as <-. simpl. now rewrite app_nil_r, orb_false_r.
  - unfold objectVariants. simpl. fold (objectVariants f options).
    destruct (f o) as [s|]; [|discriminate].
    destruct (isObjectOption s) eqn:O.
    + apply IH in H. simpl in H. destruct H as (H1 & H2 & H3).
      rewrite H1, H2, H3. simpl. rewrite <- app_assoc. simpl.
      rewrite orb_true_r. repeat split.
    + destruct (truthy_type (type s) && negb (hasObjectOptions st));
        [discriminate|].
      simpl. now apply IH.
Qed.
End Walk.

Lemma propertyless_not_object_option simplified :
  properties simplified = None -> isObjectOption simplified = false.
Proof. intros P. unfold isObjectOption. rewrite P. apply andb_false_r. Qed.

(** C9: an option whose simplified form has [type: "object"] and no
    [properties] is not an object variant.  When the walk reaches it before
    any object variant, it is the result of the merge; when an object variant
    came before it, the walk passes over it, and the merge gives what it
    gives without that option. *)
Theorem propertyless_object_option
    (simplify : JsonSchema -> Z -> Z -> Record_ JsonSchema
                -> option JsonSchema)
    (pre : list JsonSchema) (option : JsonSchema) (post : list JsonSchema)
    (maxDepth currentDepth : Z) (defs : Record_ JsonSchema)
    (simplified : JsonSchema) (st : MergeState) :
  let f := fun o => simplify o maxDepth currentDepth defs in
  mergeLoop f pre initialMergeState = Some (inr st) ->
  f option = Some simplified ->
  type_is "object" (type simplified) = true ->
  properties simplified = None ->
  objectVariants f [option] = []
  /\ (seesObjectOption f pre = false ->
      mergeSchemaOptions simplify (pre ++ option :: post)
        maxDepth currentDepth defs = Some simplified)
  /\ (seesObjectOption f pre = true ->
      mergeLoop f (option :: post) st = mergeLoop f post st
      /\ mergeSchemaOptions simplify (pre ++ option :: post)
           maxDepth currentDepth defs
         = mergeSchemaOptions simplify (pre ++ post)
             maxDepth currentDepth defs).
Proof.
  intros f W S T P.
  pose proof (propertyless_not_object_option _ P) as NO.
  destruct (mergeLoop_completed f pre _ W) as (_ & HO & _). simpl in HO.
  assert (TT : truthy_type (type simplified) = true).
  { destruct (type simplified) as [[tag|]|]; try discriminate.
    simpl in T. apply String.eqb_eq in T. now subst. }
  split; [|split].
  - unfold objectVariants. simpl. now rewrite S, NO.
  - intros B. unfold mergeSchemaOptions. fold f.
    rewrite mergeLoop_app, W. simpl. rewrite S, NO, TT, HO, B. reflexivity.
  - intros B.
    assert (E : mergeLoop f (option :: post) st = mergeLoop f post st).
    { simpl. rewrite S, NO, TT, HO, B. reflexivity. }
    split; [exact E|].
    unfold mergeSchemaOptions. fold f.
    rewrite !mergeLoop_app, W, E. reflexivity.
Qed.

Lemma propertyless_object_option_witness :
  mergeSchemaOptions
    (fun s m d ds => simplifySchemaForDatabricks 3 s m d (Some ds))
    ([with_description (Some "any") emptySchema]
       ++ refTo "#/$defs/Missing" :: [Point]) 4 0 []
  = Some opaque.
Proof.
  refine (proj1 (proj2
    (@propertyless_object_option
       (fun s m d ds => simplifySchemaForDatabricks 3 s m d (Some ds))
       [with_description (Some "any") emptySchema]
       (refTo "#/$defs/Missing") [Point] 4 0 [] opaque
       initialMergeState _ _ _ _)) _); reflexivity.
Defined.

(* ------------------------------------------------------------------ *)
(** * Option Merger: required sets and merged properties *)

Lemma set_has_In x s : set_has x s = true <-> In x s.
Proof.
  unfold set_has. rewrite existsb_exists. split.
  - intros (y & I & E). apply String.eqb_eq in E. now subst.
  - intros I. exists x. split; [assumption | apply String.eqb_refl].
Qed.

Lemma set_add_all_In xs : forall s x,
  In x (set_add_all xs s) <-> In x xs \/ In x s.
Proof.
  induction xs as [|y xs IH]; intros s x; simpl; [tauto|].
  rewrite IH. destruct (set_has y s) eqn:E.
  - apply set_has_In in E. intuition. subst. tauto.
  - rewrite in_app_iff. simpl. intuition.
Qed.

Lemma Set_of_In xs x : In x (Set_of xs) <-> In x xs.
Proof. unfold Set_of. rewrite set_add_all_In. simpl. tauto. Qed.

Lemma finalRequired_In sets p :
  In p (finalRequired sets) <-> sets <> [] /\ forall s, In s sets -> In p s.
Proof.
  unfold finalRequired. destruct sets as [|firstSet sets].
  - simpl. split; [tauto | intros [H _]; congruence].
  - rewrite filter_In, forallb_forall. split.
    + intros [_ H]. split; [discriminate|].
      intros s I. apply set_has_In. now apply H.
    + intros [_ H]. split; [apply H; now left|].
      intros s I. apply set_has_In. now apply H.
Qed.

Lemma mergeEntries_keys entries : forall merged k,
  In k (obj_keys (mergeEntries entries merged))
  <-> In k (obj_keys entries) \/ In k (obj_keys merged).
Proof.
  induction entries as [|[key propSchema] entries IH]; intros merged k; simpl;
    [tauto|].
  rewrite IH. destruct (js_lookup key merged); rewrite obj_keys_set;
    intuition.
Qed.

Lemma fold_mergeEntries_keys variants : forall merged k,
  In k (obj_keys
          (fold_left (fun m v => mergeEntries (or_else (properties v) []) m)
                     variants merged))
  <-> In k (obj_keys merged)
      \/ exists v, In v variants
                   /\ In k (obj_keys (or_else (properties v) [])).
Proof.
  induction variants as [|v variants IH]; intros merged k; simpl.
  - split; [tauto | intros [H|(v & [] & _)]; exact H].
  - rewrite IH, mergeEntries_keys. split.
    + intros [[H|H]|(w & I & H)]; eauto 6.
    + intros [H|(w & [->|I] & H)]; eauto 6.
Qed.

(** C5, as it holds: when the walk over the options runs to its end and has
    seen the object variants [v1..vn] (n > 0), the merged node has as
    [required] exactly the names required by every [vi], the member being
    left out when there is none; every property of a variant is a property
    of the merged node; and a property missing from a variant whose
    [required] names only its own properties is not in the merged
    [required]. *)
Theorem merged_required_is_intersection
    (simplify : JsonSchema -> Z -> Z -> Record_ JsonSchema
                -> option JsonSchema)
    (options : list JsonSchema) (maxDepth currentDepth : Z)
    (defs : Record_ JsonSchema) (st : MergeState) :
  let f := fun o => simplify o maxDepth currentDepth defs in
  let variants := objectVariants f options in
  mergeLoop f options initialMergeState = Some (inr st) ->
  variants <> [] ->
  exists merged,
    mergeSchemaOptions simplify options maxDepth currentDepth defs
    = Some merged
    /\ (forall p, In p (requiredOf merged)
                  <-> forall v, In v variants -> In p (requiredOf v))
    /\ (required merged = None
        <-> ~ exists p, forall v, In v variants -> In p (requiredOf v))
    /\ (forall p v, In v variants -> In p (propertyNames v) ->
                    In p (propertyNames merged))
    /\ (forall p v, In v variants -> ~ In p (propertyNames v) ->
                    incl (requiredOf v) (propertyNames v) ->
                    ~ In p (requiredOf merged)).
Proof.
  intros f variants W NE.
  destruct (mergeLoop_completed f options _ W) as (HR & HO & HM).
  simpl in HR, HO, HM. fold variants in HR, HM.
  assert (HB : hasObjectOptions st = true).
  { rewrite HO. unfold seesObjectOption. fold variants.
    destruct variants; [congruence | reflexivity]. }
  assert (FR : forall p, In p (finalRequired (requiredSets st))
                         <-> forall v, In v variants -> In p (requiredOf v)).
  { intros p. rewrite finalRequired_In, HR. split.
    - intros [_ H] v I. apply Set_of_In. apply H.
      apply in_map_iff. exists v. now split.
    - intros H. split.
      + destruct variants; [congruence | discriminate].
      + intros s I. apply in_map_iff in I. destruct I as (v & <- & I).
        apply Set_of_In. now apply H. }
  exists (mergeFinish st).
  assert (RQ : forall p, In p (requiredOf (mergeFinish st))
                         <-> In p (finalRequired (requiredSets st))).
  { intros p. unfold mergeFinish, requiredOf. rewrite HB. simpl.
    destruct (finalRequired (requiredSets st)); simpl; tauto. }
  split; [|split; [|split; [|split]]].
  - unfold mergeSchemaOptions. fold f. now rewrite W.
  - intros p. now rewrite RQ, FR.
  - unfold mergeFinish. rewrite HB. simpl.
    destruct (finalRequired (requiredSets st)) as [|q qs] eqn:E; simpl.
    + split; [|reflexivity]. intros _ (p & H). apply FR in H. exact H.
    + split; [discriminate|]. intros H. exfalso. apply H. exists q.
      apply FR. now left.
  - intros p v I K. unfold propertyNames, mergeFinish. rewrite HB. simpl.
    assert (G : In p (obj_keys (mergedProperties st))).
    { rewrite HM. apply fold_mergeEntries_keys. right. now exists v. }
    destruct (finalRequired (requiredSets st)); exact G.
  - intros p v I K S R. apply RQ in R. rewrite FR in R.
    apply K, S, R, I.
Qed.

Lemma merged_required_is_intersection_witness :
  exists merged,
    mergeSchemaOptions
      (fun s m d ds => simplifySchemaForDatabricks 2 s m d (Some ds))
      [variantA; variantAB] 4 0 [] = Some merged
    /\ merged = variantAB
    /\ required merged = None
    /\ ~ In "b" (requiredOf merged).
Proof.
  destruct (@merged_required_is_intersection
              (fun s m d ds => simplifySchemaForDatabricks 2 s m d (Some ds))
              [variantA; variantAB] 4 0 []
              (mkMergeState [("a", ofType "string"); ("b", ofType "number")]
                            [["a"]; []] true)
              eq_refl)
    as (merged & E & _ & _ & _ & H).
  - discriminate.
  - exists merged. split; [exact E|].
    assert (M : merged = variantAB).
    { vm_compute in E. injection E as <-. reflexivity. }
    split; [exact M|]. split; [now rewrite M|].
    apply (H "b" variantA).
    + left. reflexivity.
    + vm_compute. intuition discriminate.
    + vm_compute. intros x [<-|[]]. now left.
Defined.

(** C5 as stated fails for a name that a variant requires without declaring
    it: merging [variantA] and [variantB_requiring_a] keeps [a] in
    [required], although [a] is a property of the first variant only.  It
    also fails when a primitive option comes first: the options
    [{type: "string"}] and [variantA] have one object variant, which requires
    [a], and the merge returns [{type: "string"}], without [required]. *)
Lemma required_without_property_counterexample :
  (simplify 3 4 (unionOf [variantA; variantB_requiring_a])
   = Some (with_required (Some ["a"])
             (objectOf [("a", ofType "string"); ("b", ofType "number")]))
   /\ objectVariants
        (fun o => simplifySchemaForDatabricks 2 o 4 0 (Some []))
        [variantA; variantB_requiring_a]
      = [variantA; variantB_requiring_a]
   /\ In "a" (propertyNames variantA)
   /\ ~ In "a" (propertyNames variantB_requiring_a))
  /\ (simplify 3 4 (unionOf [ofType "string"; variantA])
      = Some (ofType "string")
      /\ objectVariants
           (fun o => simplifySchemaForDatabricks 2 o 4 0 (Some []))
           [ofType "string"; variantA]
         = [variantA]
      /\ requiredOf variantA = ["a"]
      /\ requiredOf (ofType "string") = []).
Proof.
  split.
  - split; [reflexivity|]. split; [reflexivity|]. split.
    + now left.
    + vm_compute. intuition discriminate.
  - repeat split.
Qed.

(* ------------------------------------------------------------------ *)
(** * Response Interceptor: the rewrite *)

Lemma mapM_Forall2 (A B : Type) (f : A -> option B) xs : forall ys,
  mapM f xs = Some ys -> Forall2 (fun x y => f x = Some y) xs ys.
Proof.
  induction xs as [|a xs IH]; intros ys H; simpl in H.
  - injection H as <-. constructor.
  - destruct (f a) as [b|] eqn:Fa; [|discriminate].
    destruct (mapM f xs) as [bs|]; [|discriminate].
    injection H as <-. constructor; auto.
Qed.

Lemma simplifyTool_object fuel tool :
  isPrimitive tool = false ->
  simplifyTool fuel tool
  = match simplifyToolInputSchema fuel (js_get "inputSchema" tool) with
    | None => None
    | Some s =>
        Some (JObj (obj_set "inputSchema" (JSchema s) (own_entries tool)))
    end.
Proof. destruct tool; simpl; try discriminate; reflexivity. Qed.

Lemma js_get_set_same k v fields :
  js_get k (JObj (obj_set k v fields)) = v.
Proof. unfold js_get. simpl. now rewrite obj_get_set_same. Qed.

Lemma js_get_set_other k k' v (orig : JsVal) :
  k <> k' -> js_get k (JObj (obj_set k' v (own_entries orig))) = js_get k orig.
Proof. intros N. unfold js_get. simpl. now rewrite obj_get_set_other. Qed.

Lemma simplify_emptySchema fuel s :
  simplifySchemaForDatabricks fuel emptySchema 4 0 None = Some s ->
  s = ofType "object".
Proof. destruct fuel; [discriminate|]. simpl. now intros [= <-]. Qed.

Lemma simplifyTool_rewritten fuel tool tool' :
  simplifyTool fuel tool = Some tool' -> toolRewritten fuel tool tool'.
Proof.
  unfold toolRewritten. destruct (isPrimitive tool) eqn:P.
  - rewrite simplifyTool_primitive by assumption. congruence.
  - rewrite simplifyTool_object by assumption.
    destruct (simplifyToolInputSchema fuel (js_get "inputSchema" tool))
      as [s|] eqn:E; [|discriminate].
    intros [= <-]. split.
    + intros k N. simpl. now apply obj_get_set_other.
    + exists s. split; [simpl; apply obj_get_set_same|].
      unfold simplifyToolInputSchema in E.
      destruct (js_get "inputSchema" tool) as [| |b|n|str|l|fields|inputSchema];
        simpl in E |- *.
      * now injection E as <-.
      * now injection E as <-.
      * destruct b; simpl in E;
          [now apply simplify_emptySchema in E | now injection E as <-].
      * destruct (n =? 0); simpl in E;
          [now injection E as <- | now apply simplify_emptySchema in E].
      * destruct (String.eqb str ""); simpl in E;
          [now injection E as <- | now apply simplify_emptySchema in E].
      * now apply simplify_emptySchema in E.
      * now apply simplify_emptySchema in E.
      * exact E.
Qed.

Lemma simplifyTool_returns fuel tool :
  (forall inputSchema,
     js_get "inputSchema" tool = JSchema inputSchema ->
     exists s, simplifySchemaForDatabricks (S fuel) inputSchema 4 0 None
               = Some s) ->
  exists tool', simplifyTool (S fuel) tool = Some tool'.
Proof.
  intros H. destruct (isPrimitive tool) eqn:P.
  - rewrite simplifyTool_primitive by assumption. eauto.
  - rewrite simplifyTool_object by assumption.
    unfold simplifyToolInputSchema.
    destruct (js_get "inputSchema" tool) as [| | | | | | |inputSchema] eqn:G;
      simpl; eauto.
    + destruct (negb b); eexists; reflexivity.
    + destruct (negb (negb (n =? 0))); eexists; reflexivity.
    + destruct (negb (negb (String.eqb s ""))); eexists; reflexivity.
    + destruct (H inputSchema eq_refl) as [s E]. simpl in E. rewrite E. eauto.
Qed.

Lemma selfReferential_diverges fuel :
  simplifySchemaForDatabricks fuel selfReferential 4 0 None = None.
Proof.
  destruct fuel as [|fuel]; [reflexivity|]. simpl.
  apply (refTo_A_diverges fuel 4 0). reflexivity.
Qed.

(** C4 as stated fails on an entry of [tools] that is not an object: in
    [{result: {tools: ["s"]}}] the entry ["s"] has no [inputSchema] and is
    given none, the message is returned with the same members.  And on a
    classified message that holds the self-referential schema of C2 the
    interceptor does not return, whatever the fuel, so that nothing is
    forwarded. *)
Lemma tools_entry_not_rewritten_counterexample :
  (isToolsListResponse stringListing = true
   /\ js_get "inputSchema" (JStr "s") = JUndefined
   /\ simplifyToolsListResponse 1 stringListing = Some stringListing
   /\ js_get "tools" (js_get "result" stringListing) = JArr [JStr "s"])
  /\ (isToolsListResponse cyclicListing = true
      /\ forall fuel, simplifyToolsListResponse fuel cyclicListing = None).
Proof.
  split; [repeat split|]. split; [reflexivity|].
  intros fuel.
  destruct (simplifyToolsListResponse_classified fuel cyclicListing eq_refl)
    as (tools & G & ->).
  injection G as <-. cbn [mapM].
  rewrite simplifyTool_object by reflexivity.
  change (simplifyToolInputSchema fuel _)
    with (simplifySchemaForDatabricks fuel selfReferential 4 0 None).
  now rewrite selfReferential_diverges.
Qed.

(** C4, as it holds: for a message classified as a tool-listing response
    whose tools have their input schemas given as schemas, whenever the
    simplifier returns on those schemas, the interceptor returns a message
    whose [result.tools] holds, element by element, the rewritten tools
    ([toolRewritten]: an entry that is not an object is carried as it is, an
    object keeps its other members and gets the simplified schema, or
    [{type: object, properties: {}}] for a missing or falsy one), and whose
    other own members, and the other own members of its [result], are those
    of the original; the example messages are rewritten as the design
    document says. *)
Theorem tools_list_rewritten (fuel : nat) (message : JsVal)
    (tools : list JsVal) :
  isToolsListResponse message = true ->
  js_get "tools" (js_get "result" message) = JArr tools ->
  (forall tool fields,
     In tool tools -> js_get "inputSchema" tool <> JObj fields) ->
  (forall tool inputSchema,
     In tool tools -> js_get "inputSchema" tool = JSchema inputSchema ->
     exists s, simplifySchemaForDatabricks (S fuel) inputSchema 4 0 None
               = Some s) ->
  (exists out tools',
     simplifyToolsListResponse (S fuel) message = Some out
     /\ js_get "tools" (js_get "result" out) = JArr tools'
     /\ Forall2 (toolRewritten (S fuel)) tools tools'
     /\ (forall k, k <> "result" ->
           obj_get k (own_entries out) = obj_get k (own_entries message))
     /\ (forall k, k <> "tools" ->
           obj_get k (own_entries (js_get "result" out))
           = obj_get k (own_entries (js_get "result" message))))
  /\ simplifyToolsListResponse (S fuel) listingExample
     = Some listingExampleRewritten
  /\ simplifyToolsListResponse (S (S (S (S fuel)))) pointListing
     = Some pointListingRewritten.
Proof.
  intros C G _ H. split; [|split; reflexivity].
  destruct (simplifyToolsListResponse_classified (S fuel) message C)
    as (tools0 & G0 & E).
  rewrite G in G0. injection G0 as <-.
  destruct (@mapM_total _ _ (simplifyTool (S fuel)) tools) as [tools' M].
  { intros tool I. apply simplifyTool_returns. intros. eapply H; eauto. }
  rewrite M in E. eexists. exists tools'. split; [exact E|].
  rewrite js_get_set_same. split; [apply js_get_set_same|]. split.
  - apply mapM_Forall2 in M. revert M. apply Forall2_impl.
    intros a b. apply simplifyTool_rewritten.
  - split; intros k N; simpl; now apply obj_get_set_other.
Qed.

Lemma tools_list_rewritten_witness :
  (exists out tools',
     simplifyToolsListResponse 4 pointListing = Some out
     /\ js_get "tools" (js_get "result" out) = JArr tools'
     /\ Forall2 (toolRewritten 4)
          [JObj [("name", JStr "p"); ("inputSchema", JSchema pointDocument)];
           JStr "s";
           JObj [("name", JStr "q"); ("inputSchema", JNull)]] tools'
     /\ (forall k, k <> "result" ->
           obj_get k (own_entries out) = obj_get k (own_entries pointListing))
     /\ (forall k, k <> "tools" ->
           obj_get k (own_entries (js_get "result" out))
           = obj_get k (own_entries (js_get "result" pointListing))))
  /\ simplifyToolsListResponse 4 listingExample
     = Some listingExampleRewritten
  /\ simplifyToolsListResponse 7 pointListing
     = Some pointListingRewritten.
Proof.
  apply (@tools_list_rewritten 3 pointListing).
  - reflexivity.
  - reflexivity.
  - intros tool fields [<-|[<-|[<-|[]]]]; discriminate.
  - intros tool inputSchema [<-|[<-|[<-|[]]]]; intros [= <-].
    eexists. reflexivity.
Defined.

(* ------------------------------------------------------------------ *)
(** * The shape of simplified nodes *)

Lemma simplifyPrimitive_shape s0 :
  (forall tags, type s0 <> Some (TSet tags)) ->
  primShape (simplifyPrimitive s0).
Proof.
  intros T. destruct s0 as [ty ps it rq an on al rf df dn en co de dflt ap ex].
  simpl in T.
  destruct ty as [[[|c tag]|tags]|]; [| |exfalso; now apply (T tags)|];
    destruct en as [[|[| | |[|c1 s1]| |] en]|];
    destruct co; destruct de as [[|c2 de]|]; destruct dflt;
    unfold primShape; cbv; repeat split; intros; discriminate.
Qed.

Section NormalForm.
Variable maxDepth : Z.

Lemma NF_mono strict h : forall d s,
  NF maxDepth strict h d s -> NF maxDepth strict (S h) d s.
Proof.
  induction h as [|h IH]; intros d s H; inversion H; subst.
  - now apply NF_overflow.
  - now apply NF_opaque.
  - now apply NF_inherited.
  - now apply NF_primitive.
  - apply NF_object; try assumption.
    eapply Forall_impl; [|eassumption]. intros kv. apply IH.
  - apply NF_array; auto.
Qed.

Lemma NF_positive strict h d s : NF maxDepth strict h d s -> exists h', h = S h'.
Proof. intros H. inversion H; eauto. Qed.

Lemma NF_beyond strict h d s :
  NF maxDepth strict h d s -> d > maxDepth -> s = opaque.
Proof. intros H D. inversion H; subst; try reflexivity; lia. Qed.

(** The properties of a returned node that is an object option. *)
Lemma NF_object_option strict h d s ps :
  NF maxDepth strict h d s -> properties s = Some ps ->
  NoDup (obj_keys ps)
  /\ Forall (fun kv => NF maxDepth strict (pred h) (d + 1) (snd kv)
                       /\ fst kv <> "__proto__") ps.
Proof.
  intros H Ps.
  inversion H as [h' d' D | h' d' F D | h' d' F D | h' d' s' D P
                  | h' d' ps' req desc ap D N NP F T
                  | h' d' it desc D I T]; subst; simpl in Ps;
    try discriminate.
  - destruct P as (Q & _). congruence.
  - injection Ps as <-. simpl. split; [exact N|].
    rewrite Forall_forall in *. intros [k v] K. split; [now apply F|].
    simpl. intros ->. apply NP. unfold obj_keys.
    now apply (in_map fst _ _ K).
Qed.

Lemma inheritedFree_object ps req desc ap :
  inheritedFree (objectNode ps req desc ap) = true ->
  forall k v, In (k, v) ps -> inheritedFree v = true.
Proof.
  intros H k v K. simpl in H. apply andb_true_iff in H. destruct H as [H _].
  rewrite forallb_forall in H. exact (H _ K).
Qed.

Lemma inheritedFree_array it desc :
  inheritedFree (arrayNode it desc) = true -> inheritedFree it = true.
Proof. intros H. simpl in H. exact H. Qed.

Lemma NF_strict h : forall d s,
  NF maxDepth false h d s -> opaqueFree maxDepth d s = true ->
  inheritedFree s = true -> NF maxDepth true h d s.
Proof.
  induction h as [|h IH]; intros d s H O M;
    inversion H as [h' d' D | h' d' F D | h' d' F D | h' d' s' D P
                    | h' d' ps req desc ap D N NP F T
                    | h' d' it desc D I T]; subst.
  - now apply NF_overflow.
  - simpl in O. apply orb_true_iff in O. destruct O as [O|O].
    + apply NF_overflow. apply Z.gtb_lt in O. lia.
    + discriminate.
  - discriminate.
  - now apply NF_primitive.
  - simpl in O. apply orb_true_iff in O. destruct O as [O|O].
    { apply Z.gtb_lt in O. lia. }
    apply andb_true_iff in O. destruct O as [O _].
    rewrite forallb_forall in O.
    apply NF_object; try assumption.
    rewrite Forall_forall in *. intros [k v] K. simpl.
    apply IH; [now apply (F (k, v)) | now apply (O (k, v))|].
    exact (inheritedFree_object _ _ _ _ M _ _ K).
  - simpl in O. apply orb_true_iff in O. destruct O as [O|O].
    { apply Z.gtb_lt in O. lia. }
    apply NF_array; auto.
Qed.
End NormalForm.

(* ------------------------------------------------------------------ *)
(** * Simplifying a simplified node *)

Lemma gtb_false d m : d <= m -> (d >? m) = false.
Proof.
  intros H. unfold Z.gtb. destruct (d ?= m) eqn:C; try reflexivity.
  apply Z.compare_gt_iff in C. lia.
Qed.

Section SecondPass.
Variable maxDepth : Z.

Lemma simplifyBody_primShape recur s d definitions' :
  primShape s -> d <= maxDepth ->
  simplifyBody recur s maxDepth d definitions' = Some s.
Proof.
  intros (P & I & A & O & L & R & _ & T & _ & _ & E) D.
  unfold simplifyBody.
  rewrite (gtb_false D).
  assert (SP : schemaToProcessOf s = s).
  { unfold schemaToProcessOf. destruct (type s) as [[|tags]|]; try reflexivity.
    now destruct (T tags). }
  rewrite SP, R, A, O, L, P, I. simpl.
  rewrite andb_false_r.
  destruct (type_is "array" (type s)); now rewrite E.
Qed.

Lemma js_assign_other k v t :
  k <> "__proto__" -> js_assign k v t = obj_set k v t.
Proof.
  intros N. unfold js_assign. apply String.eqb_neq in N. now rewrite N.
Qed.

Lemma simplifyProperties_fixed (f : JsonSchema -> option JsonSchema)
    (ps : Record_ JsonSchema) :
  forall acc : Record_ JsonSchema,
    Forall (fun kv => f (snd kv) = Some (snd kv)) ps ->
    NoDup (obj_keys (acc ++ ps)%list) ->
    ~ In "__proto__" (obj_keys ps) ->
    simplifyProperties f ps acc = Some (acc ++ ps)%list.
Proof.
  induction ps as [|[k v] ps IH]; intros acc F N NP; simpl.
  - now rewrite app_nil_r.
  - inversion F as [|? ? Fv Fps]; subst. simpl in Fv. rewrite Fv.
    rewrite js_assign_other by (intros ->; apply NP; now left).
    rewrite obj_set_fresh.
    + rewrite IH; [now rewrite <- app_assoc | assumption | |].
      * now rewrite <- app_assoc.
      * intros I. apply NP. now right.
    + unfold obj_keys in *. rewrite map_app in N. simpl in N.
      apply NoDup_remove_2 in N. intros I. apply N.
      apply in_or_app. now left.
Qed.

(** A strict normal form is a fixed point of the simplifier, with fuel
    equal to its height bound, whatever the reference table. *)
Lemma NF_fixed h : forall d s definitions',
  NF maxDepth true h d s ->
  simplifySchemaForDatabricks h s maxDepth d definitions' = Some s.
Proof.
  induction h as [|h IH]; intros d s definitions' H;
    inversion H as [h' d' D | h' d' F D | h' d' F D | h' d' s' D P
                    | h' d' ps req desc ap D N NP F T
                    | h' d' it desc D I T]; subst.
  - apply simplify_depth_guard. apply Z.gtb_lt. lia.
  - discriminate.
  - discriminate.
  - simpl. now apply simplifyBody_primShape.
  - simpl. unfold simplifyBody. rewrite (gtb_false D).
    cbn -[simplifyProperties simplifySchemaForDatabricks].
    rewrite (@simplifyProperties_fixed _ ps []).
    + simpl. destruct T as [->|T]; [now destruct ap|].
      rewrite T. now destruct ap.
    + eapply Forall_impl; [|exact F]. intros kv K. now apply IH.
    + exact N.
    + exact NP.
  - simpl. unfold simplifyBody. rewrite (gtb_false D).
    cbn -[simplifySchemaForDatabricks].
    rewrite (IH _ _ _ I).
    destruct T as [->|T]; [reflexivity|]. now rewrite T.
Qed.
End SecondPass.

(* ------------------------------------------------------------------ *)
(** * What the simplifier returns is a normal form *)

Lemma schemaToProcessOf_type s :
  forall tags, type (schemaToProcessOf s) <> Some (TSet tags).
Proof.
  intros tags. unfold schemaToProcessOf.
  destruct (type s) as [[tag|l]|] eqn:E; simpl; try congruence.
  destruct (filter _ l); discriminate.
Qed.

Lemma obj_get_In (A : Type) k (v : A) o : obj_get k o = Some v -> In (k, v) o.
Proof.
  induction o as [|[k' v'] o IH]; simpl; [discriminate|].
  destruct (String.eqb k k') eqn:E.
  - apply String.eqb_eq in E. intros [= ->]. subst. now left.
  - intros H. right. now apply IH.
Qed.

Lemma obj_set_Forall (A : Type) (P : string * A -> Prop) k v o :
  Forall P o -> P (k, v) -> Forall P (obj_set k v o).
Proof.
  intros F Pv. induction F as [|[k' v'] o Px F IH]; simpl.
  - now constructor.
  - destruct (String.eqb k k'); constructor; auto.
Qed.

Section Returned.
Variable maxDepth : Z.

Lemma NFtable_set h d k v t :
  NFtable maxDepth h d t -> NF maxDepth false h d v -> k <> "__proto__" ->
  NFtable maxDepth h d (obj_set k v t).
Proof.
  intros (N & NP & F) V K. split; [now apply obj_set_NoDup|]. split.
  - rewrite obj_keys_set. intros [E|I]; [now apply K | now apply NP].
  - now apply obj_set_Forall.
Qed.

Lemma mergePropertySchemas_NF h d a b :
  NF maxDepth false h d a -> NF maxDepth false h d b ->
  NF maxDepth false h d (mergePropertySchemas a b).
Proof.
  intros A B. unfold mergePropertySchemas.
  destruct (type_strict_eq (type a) (type b)) eqn:E; [exact A|].
  destruct (truthy_type (type a) && negb (truthy_type (type b))); [exact A|].
  destruct (truthy_type (type b) && negb (truthy_type (type a))); [exact B|].
  destruct (NF_positive A) as [h' ->].
  destruct (Z_le_gt_dec d maxDepth) as [D|D].
  - apply NF_primitive; [exact D|].
    destruct (description a) as [[|c1 s1]|];
      destruct (description b) as [[|c2 s2]|]; cbv; repeat split;
      intros; discriminate.
  - rewrite (NF_beyond A D), (NF_beyond B D) in E. discriminate.
Qed.

(** The first property of a name that [Object.prototype] has is merged with
    the inherited member. *)
Lemma mergePropertySchemas_inherited_NF h d b :
  NF maxDepth false h d b ->
  NF maxDepth false h d (mergePropertySchemas inheritedMember b).
Proof.
  intros B. destruct (Z_le_gt_dec d maxDepth) as [D|D].
  - apply mergePropertySchemas_NF; [|exact B].
    destruct (NF_positive B) as [h' ->]. now apply NF_inherited.
  - pose proof (NF_beyond B D) as E. subst b. exact B.
Qed.

Lemma mergeEntries_NF h d entries : forall merged,
  Forall (fun kv => NF maxDepth false h d (snd kv) /\ fst kv <> "__proto__")
         entries ->
  NFtable maxDepth h d merged ->
  NFtable maxDepth h d (mergeEntries entries merged).
Proof.
  induction entries as [|[key propSchema] entries IH]; intros merged F M;
    simpl; [exact M|].
  inversion F as [|? ? [Fp Fk] Fe]; subst. simpl in Fp, Fk.
  apply IH; [exact Fe|]. unfold js_lookup.
  destruct (obj_get key merged) as [existing|] eqn:G.
  - apply NFtable_set; [exact M| |exact Fk].
    apply mergePropertySchemas_NF; [|exact Fp].
    destruct M as (_ & _ & M). rewrite Forall_forall in M.
    exact (M _ (obj_get_In _ _ G)).
  - destruct (isObjectPrototypeMember key).
    + apply NFtable_set; [exact M| |exact Fk].
      now apply mergePropertySchemas_inherited_NF.
    + now apply NFtable_set.
Qed.

Lemma mergeLoop_NF (f : JsonSchema -> option JsonSchema) h d options :
  (forall o s, f o = Some s -> NF maxDepth false h d s) ->
  forall st r,
    NFtable maxDepth (pred h) (d + 1) (mergedProperties st) ->
    mergeLoop f options st = Some r ->
    match r with
    | inl s => NF maxDepth false h d s
    | inr st' => NFtable maxDepth (pred h) (d + 1) (mergedProperties st')
    end.
Proof.
  intros Hf. induction options as [|o options IH]; intros st r M H;
    simpl in H.
  - now injection H as <-.
  - destruct (f o) as [s|] eqn:Fo; [|discriminate].
    destruct (isObjectOption s) eqn:O.
    + apply IH in H; [exact H|]. simpl.
      unfold isObjectOption in O. apply andb_true_iff in O.
      destruct O as [_ O]. destruct (properties s) as [ps|] eqn:P;
        [|discriminate].
      apply mergeEntries_NF; [|exact M].
      exact (proj2 (NF_object_option (Hf _ _ Fo) P)).
    + destruct (truthy_type (type s) && negb (hasObjectOptions st)).
      * injection H as <-. exact (Hf _ _ Fo).
      * now apply IH in H.
Qed.

Lemma mergeSchemaOptions_NF recur h d options defs s :
  d <= maxDepth ->
  (forall o r, recur o maxDepth d defs = Some r -> NF maxDepth false h d r) ->
  mergeSchemaOptions recur options maxDepth d defs = Some s ->
  NF maxDepth false (S h) d s.
Proof.
  intros D Hf. unfold mergeSchemaOptions.
  destruct (mergeLoop _ options initialMergeState) as [r|] eqn:L;
    [|discriminate].
  apply (mergeLoop_NF _ (h:=h) (d:=d)) in L.
  - destruct r as [early|st]; intros [= <-].
    + now apply NF_mono.
    + unfold mergeFinish. destruct (hasObjectOptions st); simpl.
      * destruct L as (N & NP & F).
        assert (F' : Forall (fun kv => NF maxDepth false h (d + 1) (snd kv)) (mergedProperties st)).
        { destruct h; [exact F|].
          eapply Forall_impl; [|exact F]. intros kv. apply NF_mono. }
        destruct (0 <? _);
          [apply (NF_object (maxDepth:=maxDepth) (strict:=false)
                    (h:=h) (d:=d) (ps:=mergedProperties st)
                    (Some (finalRequired (requiredSets st))) None D N NP F')
          |apply (NF_object (maxDepth:=maxDepth) (strict:=false)
                    (h:=h) (d:=d) (ps:=mergedProperties st)
                    None None D N NP F')]; now left.
      * now apply NF_opaque.
  - exact Hf.
  - split; [constructor|]. split; [intros []|constructor].
Qed.

Lemma simplifyProperties_NF (f : JsonSchema -> option JsonSchema) h d
    entries :
  (forall p s, f p = Some s -> NF maxDepth false h d s) ->
  forall acc out,
    NFtable maxDepth h d acc ->
    simplifyProperties f entries acc = Some out ->
    NFtable maxDepth h d out.
Proof.
  intros Hf. induction entries as [|[key propSchema] entries IH];
    intros acc out A H; simpl in H.
  - now injection H as <-.
  - destruct (f propSchema) as [p|] eqn:Fp; [|discriminate].
    apply IH in H; [exact H|]. unfold js_assign.
    destruct (String.eqb key "__proto__") eqn:K; [exact A|].
    apply NFtable_set; [exact A| |now apply String.eqb_neq].
    exact (Hf _ _ Fp).
Qed.

(** Every node that the simplifier returns with fuel [fuel] at depth [d]
    is a normal form of height below [fuel]. *)
Lemma simplify_NF fuel : forall schema d definitions' s,
  simplifySchemaForDatabricks fuel schema maxDepth d definitions' = Some s ->
  NF maxDepth false fuel d s.
Proof.
  induction fuel as [|fuel IH]; intros schema d definitions' s H;
    [discriminate|].
  simpl in H. unfold simplifyBody in H.
  destruct (d >? maxDepth) eqn:G.
  { injection H as <-. apply NF_overflow. apply Z.gtb_lt in G. lia. }
  assert (D : d <= maxDepth).
  { destruct (Z_le_gt_dec d maxDepth) as [L|L]; [exact L|].
    apply Z.gt_lt, Z.gtb_lt in L. congruence. }
  set (stp := schemaToProcessOf schema) in *.
  set (defs := tableOf schema definitions') in *.
  destruct (truthy_string (dollar_ref stp)).
  { destruct (js_lookup _ defs) as [refSchema|].
    - apply NF_mono. eapply IH; eassumption.
    - injection H as <-. now apply NF_opaque. }
  destruct (is_some (anyOf stp) || is_some (oneOf stp)).
  { eapply mergeSchemaOptions_NF; [exact D| |exact H].
    intros o r. apply IH. }
  destruct (is_some (allOf stp)).
  { eapply mergeSchemaOptions_NF; [exact D| |exact H].
    intros o r. apply IH. }
  destruct (type_is "object" (type stp) && is_some (properties stp)).
  { destruct (simplifyProperties _ _ []) as [ps|] eqn:P; [|discriminate].
    apply (simplifyProperties_NF _ (h:=fuel) (d:=d + 1)) in P.
    - destruct P as (N & NP & F). injection H as <-.
      assert (O : forall desc,
                desc = None \/ truthy_string desc = true ->
                NF maxDepth false (S fuel) d
                   (objectNode ps (required stp) desc
                               (additionalProperties stp))).
      { intros desc T. now apply NF_object. }
      destruct (truthy_string (description stp)) eqn:T;
        destruct (additionalProperties stp) eqn:AP; simpl.
      + exact (O (description stp) (or_intror T)).
      + exact (O (description stp) (or_intror T)).
      + exact (O None (or_introl eq_refl)).
      + exact (O None (or_introl eq_refl)).
    - intros p r. apply IH.
    - split; [constructor|]. split; [intros []|constructor]. }
  destruct (if type_is "array" (type stp) then items stp else None)
    as [itemsSchema|].
  { destruct (simplifySchemaForDatabricks fuel itemsSchema _ _ _)
      as [it|] eqn:I; [|discriminate].
    apply IH in I. injection H as <-.
    destruct (truthy_string (description stp)) eqn:T.
    - apply (NF_array (desc:=description stp) D I). now right.
    - apply (NF_array (desc:=None) D I). now left. }
  injection H as <-. apply NF_primitive; [exact D|].
  apply simplifyPrimitive_shape. apply schemaToProcessOf_type.
Qed.

(** A node that the simplifier returns has a member: the early return of
    the merger has a type, every other branch builds a node with a type, and
    the last branch falls back to [{type: "object"}]. *)
Lemma mergeLoop_early (f : JsonSchema -> option JsonSchema) options :
  forall st s,
    mergeLoop f options st = Some (inl s) -> truthy_type (type s) = true.
Proof.
  induction options as [|o options IH]; intros st s H; simpl in H;
    [discriminate|].
  destruct (f o) as [r|]; [|discriminate].
  destruct (isObjectOption r); [now apply IH in H|].
  destruct (truthy_type (type r) && negb (hasObjectOptions st)) eqn:T.
  - injection H as <-. apply andb_true_iff in T. tauto.
  - now apply IH in H.
Qed.

Lemma mergeSchemaOptions_keys recur options d defs s :
  mergeSchemaOptions recur options maxDepth d defs = Some s ->
  schema_keys s <> [].
Proof.
  unfold mergeSchemaOptions.
  destruct (mergeLoop _ options initialMergeState) as [[early|st]|] eqn:L;
    [| |discriminate]; intros [= <-].
  - apply mergeLoop_early in L. unfold schema_keys.
    destruct (type early); [discriminate|discriminate].
  - unfold mergeFinish. destruct (hasObjectOptions st); [|discriminate].
    destruct (0 <? _); discriminate.
Qed.
End Returned.

Lemma NF_forbiddenFreeOutside maxDepth strict h : forall d s,
  NF maxDepth strict h d s -> forbiddenFreeOutside s = true.
Proof.
  induction h as [|h IH]; intros d s H;
    inversion H as [h' d' D | h' d' F D | h' d' F D | h' d' s' D P
                    | h' d' ps req desc ap D N NP F T
                    | h' d' it desc D I T]; subst.
  - reflexivity.
  - reflexivity.
  - reflexivity.
  - destruct s as [ty ps it rq an on al rf df dn en co de dflt ap ex].
    destruct P as (P1 & P2 & P3 & P4 & P5 & P6 & _ & Ty & P7 & P8 & _).
    simpl in *. subst. destruct ty as [[tag|tags]|]; try reflexivity.
    now destruct (Ty tags).
  - simpl. rewrite andb_true_r. apply forallb_forall. intros [k v] K.
    rewrite Forall_forall in F. exact (IH _ _ (F _ K)).
  - simpl. exact (IH _ _ I).
Qed.

(** Outside [additionalProperties], a returned node is free of the
    forbidden constructs at every depth. *)
Lemma simplify_forbiddenFreeOutside fuel schema maxDepth d definitions' s :
  simplifySchemaForDatabricks fuel schema maxDepth d definitions' = Some s ->
  forbiddenFreeOutside s = true.
Proof.
  intros H. eapply NF_forbiddenFreeOutside. eapply simplify_NF. exact H.
Qed.

(* ------------------------------------------------------------------ *)
(** * Idempotence *)

(** C3 as stated fails on the opaque fallback: [{$ref: "#/$defs/Missing"}]
    simplifies to [{type: "object", additionalProperties: true}], which
    simplifies to [{type: "object"}].  It also fails where the merger meets
    an untyped property named like a member of [Object.prototype]:
    [{anyOf: [{type: "object", properties: {toString: {description:
    "d"}}}]}] simplifies to an object whose property [toString] is the
    inherited member, and simplifying that gives [{type: "object"}] for that
    property. *)
Lemma opaque_not_fixed_counterexample :
  (simplify 1 4 (refTo "#/$defs/Missing") = Some opaque
   /\ simplify 1 4 opaque = Some (ofType "object")
   /\ ofType "object" <> opaque)
  /\ (simplify 3 4 toStringUnion
      = Some (objectOf [("toString", inheritedMember)])
      /\ simplify 3 4 (objectOf [("toString", inheritedMember)])
         = Some (objectOf [("toString", ofType "object")])
      /\ objectOf [("toString", ofType "object")]
         <> objectOf [("toString", inheritedMember)]).
Proof.
  split; (split; [reflexivity|]; split; [reflexivity | discriminate]).
Qed.

(** C3, as it holds: when the simplifier returns [O] for [S], [O] has no
    opaque fallback (a node with [additionalProperties] and without
    [properties]) at a depth up to [maxDepth], and no property of [O] is a
    node without members (the inherited member of [Object.prototype] that
    the merger stores for an untyped property of such a name), simplifying
    [O], with the same fuel, returns [O]; when [O] is itself the opaque
    fallback (and [maxDepth] is not negative), simplifying it returns
    [{type: "object"}]. *)
Theorem simplify_idempotent_without_shallow_opaque
    (fuel : nat) (maxDepth : Z) (S O : JsonSchema) :
  simplify fuel maxDepth S = Some O ->
  (opaqueFree maxDepth 0 O = true -> inheritedFree O = true ->
   simplify fuel maxDepth O = Some O)
  /\ (O = opaque -> 0 <= maxDepth ->
      simplify fuel maxDepth O = Some (ofType "object")).
Proof.
  unfold simplify. intros H. split.
  - intros F M. apply NF_fixed. apply NF_strict; [|exact F|exact M].
    eapply simplify_NF. exact H.
  - intros -> M. destruct fuel as [|fuel]; [discriminate|].
    simpl. unfold simplifyBody. now rewrite (gtb_false M).
Qed.

Lemma simplify_idempotent_without_shallow_opaque_witness :
  simplify 4 4 (objectOf [("origin", Point)])
  = Some (objectOf [("origin", Point)]).
Proof.
  refine (proj1 (@simplify_idempotent_without_shallow_opaque
                   4 4 pointDocument (objectOf [("origin", Point)]) _) _ _);
    reflexivity.
Defined.

(* ------------------------------------------------------------------ *)
(** * Further properties of the Schema Simplifier *)

(** Every node that the simplifier returns is, outside
    [additionalProperties], free of the forbidden constructs at every depth
    along [properties] and [items]: no set-valued [type], no [$ref],
    [anyOf], [oneOf], [allOf], [$defs] or [definitions]. *)
Theorem returned_node_has_no_forbidden_construct (fuel : nat)
    (schema : JsonSchema) (maxDepth d : Z)
    (definitions' : option (Record_ JsonSchema)) (s : JsonSchema) :
  simplifySchemaForDatabricks fuel schema maxDepth d definitions' = Some s ->
  forbiddenFreeOutside s = true.
Proof.
  intros H. eapply NF_forbiddenFreeOutside. eapply simplify_NF. exact H.
Qed.

Lemma returned_node_has_no_forbidden_construct_witness :
  forbiddenFreeOutside (objectOf [("origin", Point)]) = true.
Proof.
  apply (@returned_node_has_no_forbidden_construct 4 pointDocument 4 0 None).
  reflexivity.
Defined.

Lemma fold_max_nesting_le (ps : Record_ JsonSchema) (b : nat) :
  Forall (fun kv => (nesting (snd kv) <= b)%nat) ps ->
  (fold_right (fun kv m => Nat.max (let '(_, v) := kv in nesting v) m) O ps
   <= b)%nat.
Proof.
  induction 1 as [|[k v] ps Hv _ IH]; simpl; [lia|].
  simpl in Hv. apply Nat.max_lub; assumption.
Qed.

Lemma NF_nesting maxDepth strict h : forall d s,
  NF maxDepth strict h d s ->
  Z.of_nat (nesting s) <= Z.max 0 (maxDepth + 1 - d).
Proof.
  induction h as [|h IH]; intros d s H;
    inversion H as [h' d' D | h' d' F D | h' d' F D | h' d' s' D P
                    | h' d' ps req desc ap D N NP F T
                    | h' d' it desc D I T]; subst.
  - simpl. lia.
  - simpl. lia.
  - simpl. lia.
  - destruct s as [ty ps it rq an on al rf df dn en co de dflt ap ex].
    destruct P as (P1 & P2 & _). simpl in *. subst. simpl. lia.
  - simpl.
    assert (B : (fold_right
                   (fun kv m => Nat.max (let '(_, v) := kv in nesting v) m)
                   O ps <= Z.to_nat (maxDepth - d))%nat).
    { apply fold_max_nesting_le. eapply Forall_impl; [|exact F].
      intros kv K. apply IH in K. lia. }
    lia.
  - simpl. apply IH in I. lia.
Qed.

(** Along [properties] and [items], a node returned at depth [d] nests at
    most [maxDepth + 1 - d] levels (none beyond [maxDepth]): the entry call
    returns a node of nesting at most [maxDepth + 1]. *)
Theorem returned_nesting_bounded (fuel : nat) (schema : JsonSchema)
    (maxDepth d : Z) (definitions' : option (Record_ JsonSchema))
    (s : JsonSchema) :
  simplifySchemaForDatabricks fuel schema maxDepth d definitions' = Some s ->
  Z.of_nat (nesting s) <= Z.max 0 (maxDepth + 1 - d).
Proof.
  intros H. eapply NF_nesting. eapply simplify_NF. exact H.
Qed.

Lemma returned_nesting_bounded_witness :
  Z.of_nat (nesting (objectOf [("origin", Point)])) <= Z.max 0 (4 + 1 - 0).
Proof.
  apply (@returned_nesting_bounded 4 pointDocument 4 0 None). reflexivity.
Defined.

Lemma simplifyPrimitive_keys s0 : schema_keys (simplifyPrimitive s0) <> [].
Proof.
  unfold simplifyPrimitive.
  match goal with
  | |- context [if (0 <? Z.of_nat (length (schema_keys ?x))) then _ else _] =>
      destruct (schema_keys x) eqn:K
  end; simpl.
  - discriminate.
  - rewrite K. discriminate.
Qed.

Lemma simplify_keys fuel : forall schema maxDepth d definitions' s,
  simplifySchemaForDatabricks fuel schema maxDepth d definitions' = Some s ->
  schema_keys s <> [].
Proof.
  induction fuel as [|fuel IH]; intros schema maxDepth d definitions' s H;
    [discriminate|].
  simpl in H. unfold simplifyBody in H.
  destruct (d >? maxDepth); [injection H as <-; discriminate|].
  set (stp := schemaToProcessOf schema) in *.
  set (defs := tableOf schema definitions') in *.
  destruct (truthy_string (dollar_ref stp)).
  { destruct (js_lookup _ defs) as [refSchema|].
    - eapply IH; eassumption.
    - injection H as <-. discriminate. }
  destruct (is_some (anyOf stp) || is_some (oneOf stp)).
  { eapply mergeSchemaOptions_keys; exact H. }
  destruct (is_some (allOf stp)).
  { eapply mergeSchemaOptions_keys; exact H. }
  destruct (type_is "object" (type stp) && is_some (properties stp)).
  { destruct (simplifyProperties _ _ []) as [ps|]; [|discriminate].
    injection H as <-.
    destruct (truthy_string (description stp));
      destruct (is_some (additionalProperties stp)); discriminate. }
  destruct (if type_is "array" (type stp) then items stp else None)
    as [itemsSchema|].
  { destruct (simplifySchemaForDatabricks fuel itemsSchema _ _ _)
      as [it|]; [|discriminate].
    injection H as <-.
    destruct (truthy_string (description stp)); discriminate. }
  injection H as <-. apply simplifyPrimitive_keys.
Qed.

(** A returned node is never the empty object: it has at least one
    member. *)
Theorem returned_node_not_empty (fuel : nat) (schema : JsonSchema)
    (maxDepth d : Z) (definitions' : option (Record_ JsonSchema))
    (s : JsonSchema) :
  simplifySchemaForDatabricks fuel schema maxDepth d definitions' = Some s ->
  schema_keys s <> [].
Proof.
  intros H. eapply simplify_keys. exact H.
Qed.

Lemma returned_node_not_empty_witness :
  schema_keys (ofType "object") <> [].
Proof.
  apply (@returned_node_not_empty 1 emptySchema 4 0 None). reflexivity.
Defined.

Lemma NF_protoFree maxDepth strict h : forall d s,
  NF maxDepth strict h d s -> protoFree s = true.
Proof.
  induction h as [|h IH]; intros d s H;
    inversion H as [h' d' D | h' d' F D | h' d' F D | h' d' s' D P
                    | h' d' ps req desc ap D N NP F T
                    | h' d' it desc D I T]; subst.
  - reflexivity.
  - reflexivity.
  - reflexivity.
  - destruct s as [ty ps it rq an on al rf df dn en co de dflt ap ex].
    destruct P as (P1 & P2 & _). simpl in *. now subst.
  - simpl. rewrite andb_true_r. apply forallb_forall. intros [k v] K.
    rewrite Forall_forall in F. pose proof (IH _ _ (F _ K)) as V.
    simpl in V. rewrite V, andb_true_r.
    apply negb_true_iff, String.eqb_neq. intros ->. apply NP.
    unfold obj_keys. exact (in_map fst _ _ K).
  - simpl. exact (IH _ _ I).
Qed.

(** No table of properties in a returned node, at any depth along
    [properties] and [items], has a property named [__proto__]: the object
    branch does not store one, and the merger only takes over the
    properties of returned nodes. *)
Theorem returned_node_has_no_proto_property (fuel : nat)
    (schema : JsonSchema) (maxDepth d : Z)
    (definitions' : option (Record_ JsonSchema)) (s : JsonSchema) :
  simplifySchemaForDatabricks fuel schema maxDepth d definitions' = Some s ->
  protoFree s = true.
Proof.
  intros H. eapply NF_protoFree. eapply simplify_NF. exact H.
Qed.

Lemma returned_node_has_no_proto_property_witness :
  simplifySchemaForDatabricks 3
    (unionOf [objectOf [("x", ofType "number");
                        ("__proto__", ofType "string")]]) 4 0 None
  = Some (objectOf [("x", ofType "number")])
  /\ protoFree (objectOf [("x", ofType "number")]) = true.
Proof.
  split; [reflexivity|].
  apply (@returned_node_has_no_proto_property 3
           (unionOf [objectOf [("x", ofType "number");
                               ("__proto__", ofType "string")]]) 4 0 None).
  reflexivity.
Defined.

Lemma schemaToProcessOf_members s :
  properties (schemaToProcessOf s) = properties s
  /\ items (schemaToProcessOf s) = items s
  /\ anyOf (schemaToProcessOf s) = anyOf s
  /\ oneOf (schemaToProcessOf s) = oneOf s
  /\ allOf (schemaToProcessOf s) = allOf s.
Proof.
  unfold schemaToProcessOf. destruct (type s) as [[|]|]; repeat split.
Qed.

Lemma mergeLoop_total (f : JsonSchema -> option JsonSchema) options :
  (forall o, In o options -> exists r, f o = Some r) ->
  forall st, exists r, mergeLoop f options st = Some r.
Proof.
  induction options as [|o options IH]; intros H st; simpl; [eauto|].
  destruct (H o (or_introl eq_refl)) as [r ->].
  assert (H' : forall o', In o' options -> exists r', f o' = Some r')
    by (intros; apply H; now right).
  destruct (isObjectOption r); [apply IH; exact H'|].
  destruct (truthy_type (type r) && negb (hasObjectOptions st));
    [eauto | apply IH; exact H'].
Qed.

Lemma mergeSchemaOptions_total recur options maxDepth d defs :
  (forall o, In o options -> exists r, recur o maxDepth d defs = Some r) ->
  exists r, mergeSchemaOptions recur options maxDepth d defs = Some r.
Proof.
  intros H. unfold mergeSchemaOptions.
  destruct (mergeLoop_total (fun o => recur o maxDepth d defs) options H
              initialMergeState) as [[early|st] ->]; eauto.
Qed.

Lemma simplifyProperties_total (f : JsonSchema -> option JsonSchema) entries :
  (forall kv, In kv entries -> exists r, f (snd kv) = Some r) ->
  forall acc, exists out, simplifyProperties f entries acc = Some out.
Proof.
  induction entries as [|[k v] entries IH]; intros H acc; simpl; [eauto|].
  destruct (H (k, v) (or_introl eq_refl)) as [r E]. simpl in E. rewrite E.
  apply IH. intros; apply H; now right.
Qed.

Lemma fold_max_In (A : Type) (g : A -> nat) l x :
  In x l -> (g x <= fold_right (fun y m => Nat.max (g y) m) O l)%nat.
Proof.
  induction l as [|y l IH]; simpl; [tauto|].
  intros [->|I]; [lia|]. specialize (IH I). lia.
Qed.

Lemma callDepth_child s c :
  In c (childrenOf s) -> (callDepth c < callDepth s)%nat.
Proof.
  destruct s as [ty ps it rq an on al rf df dn en co de dflt ap ex].
  unfold childrenOf. simpl. rewrite !in_app_iff. intros H.
  assert (P : forall l : Record_ JsonSchema, In c (map snd l) ->
            (callDepth c
             <= fold_right (fun kv m => Nat.max (let '(_, v) := kv in
                                                 callDepth v) m) O l)%nat).
  { induction l as [|[k v] l IH]; simpl; [tauto|].
    intros [->|I]; [lia|]. specialize (IH I). lia. }
  destruct H as [H|[H|[H|[H|H]]]].
  - destruct ps as [ps|]; [|destruct H]. simpl in H. apply P in H. lia.
  - destruct it as [i|]; [|destruct H]. destruct H as [->|[]]. lia.
  - destruct an as [l|]; [|destruct H].
    simpl in H. apply (fold_max_In callDepth) in H. lia.
  - destruct on as [l|]; [|destruct H].
    simpl in H. apply (fold_max_In callDepth) in H. lia.
  - destruct al as [l|]; [|destruct H].
    simpl in H. apply (fold_max_In callDepth) in H. lia.
Qed.

Lemma refFree_child s c :
  refFree s = true -> In c (childrenOf s) -> refFree c = true.
Proof.
  destruct s as [ty ps it rq an on al rf df dn en co de dflt ap ex].
  unfold childrenOf. simpl. rewrite !in_app_iff.
  rewrite !andb_true_iff. intros (((((_ & Hp) & Hi) & Ha) & Ho) & Hl) H.
  destruct H as [H|[H|[H|[H|H]]]].
  - destruct ps as [ps|]; [|destruct H]. simpl in H.
    apply in_map_iff in H. destruct H as ([k v] & <- & I).
    rewrite forallb_forall in Hp. exact (Hp _ I).
  - destruct it as [i|]; [|destruct H]. now destruct H as [->|[]].
  - destruct an as [l|]; [|destruct H].
    rewrite forallb_forall in Ha. now apply Ha.
  - destruct on as [l|]; [|destruct H].
    rewrite forallb_forall in Ho. now apply Ho.
  - destruct al as [l|]; [|destruct H].
    rewrite forallb_forall in Hl. now apply Hl.
Qed.

Lemma refFree_no_ref s :
  refFree s = true -> truthy_string (dollar_ref s) = false.
Proof.
  destruct s as [ty ps it rq an on al rf df dn en co de dflt ap ex]. simpl.
  rewrite !andb_true_iff. intros (((((H & _) & _) & _) & _) & _).
  now apply negb_true_iff.
Qed.

(** On a schema that has no [$ref] in any node the simplifier visits, the
    simplifier returns, with any fuel that is at least the height of the
    schema, at every depth and with every reference table. *)
Theorem refFree_simplify_returns (fuel : nat) (schema : JsonSchema)
    (maxDepth currentDepth : Z) (definitions' : option (Record_ JsonSchema)) :
  refFree schema = true ->
  (callDepth schema <= fuel)%nat ->
  exists s,
    simplifySchemaForDatabricks fuel schema maxDepth currentDepth definitions'
    = Some s.
Proof.
  revert schema currentDepth definitions'.
  induction fuel as [|fuel IH]; intros schema d definitions' R C.
  - destruct schema; simpl in C; lia.
  - assert (K : forall c d' ds, In c (childrenOf schema) ->
              exists r, simplifySchemaForDatabricks fuel c maxDepth d' ds
                        = Some r).
    { intros c d' ds I. apply IH.
      - eapply refFree_child; eassumption.
      - apply callDepth_child in I. lia. }
    simpl. unfold simplifyBody.
    destruct (d >? maxDepth); [eauto|].
    rewrite dollar_ref_schemaToProcess, (refFree_no_ref _ R).
    destruct (schemaToProcessOf_members schema) as (-> & -> & -> & -> & ->).
    set (defs := tableOf schema definitions').
    unfold childrenOf in K.
    destruct (is_some (anyOf schema) || is_some (oneOf schema)).
    { apply mergeSchemaOptions_total. intros o I. apply K.
      rewrite !in_app_iff. destruct (anyOf schema); simpl in *; auto. }
    destruct (is_some (allOf schema)).
    { apply mergeSchemaOptions_total. intros o I. apply K.
      rewrite !in_app_iff. auto. }
    destruct (type_is "object" (type (schemaToProcessOf schema))
              && is_some (properties schema)).
    { destruct (simplifyProperties_total
                  (fun propSchema =>
                     simplifySchemaForDatabricks fuel propSchema maxDepth
                       (d + 1) (Some defs))
                  (or_else (properties schema) [])) with (acc := @nil (string * JsonSchema))
        as [out ->]; [|eauto].
      intros kv I. apply K. rewrite !in_app_iff. left.
      now apply in_map. }
    destruct (if type_is "array" (type (schemaToProcessOf schema))
              then items schema else None) as [itemsSchema|] eqn:A; [|eauto].
    assert (I : items schema = Some itemsSchema).
    { destruct (type_is "array" _); [exact A | discriminate]. }
    destruct (K itemsSchema (d + 1) (Some defs)) as [r ->]; [|eauto].
    rewrite !in_app_iff. right. left. rewrite I. now left.
Qed.

Lemma refFree_simplify_returns_witness :
  exists s,
    simplifySchemaForDatabricks 3 (unionOf [variantA; variantAB]) 4 0 None
    = Some s.
Proof.
  apply refFree_simplify_returns.
  - reflexivity.
  - vm_compute. lia.
Defined.

Lemma mergedOptions_unionOf o : mergedOptions (unionOf o) = Some o.
Proof. reflexivity. Qed.

(** A node without [$ref] that has [anyOf], [oneOf] or [allOf] simplifies
    exactly as the bare node [{anyOf: options}] over the same reference
    table, where [options] are those of [anyOf], else of [oneOf], else of
    [allOf]: the node's own [type], [properties], [required], [description]
    and the other two lists play no part, and [allOf] is merged like
    [anyOf]. *)
Theorem union_members_take_over (fuel : nat) (schema : JsonSchema)
    (maxDepth currentDepth : Z) (definitions' : option (Record_ JsonSchema))
    (options : list JsonSchema) :
  truthy_string (dollar_ref schema) = false ->
  mergedOptions schema = Some options ->
  simplifySchemaForDatabricks fuel schema maxDepth currentDepth definitions'
  = simplifySchemaForDatabricks fuel (unionOf options) maxDepth currentDepth
      (Some (tableOf schema definitions')).
Proof.
  intros R M. destruct fuel as [|fuel]; [reflexivity|].
  simpl. unfold simplifyBody.
  destruct (currentDepth >? maxDepth); [reflexivity|].
  rewrite dollar_ref_schemaToProcess, R.
  destruct (schemaToProcessOf_members schema) as (_ & _ & -> & -> & ->).
  unfold mergedOptions in M. simpl.
  destruct (anyOf schema) as [a|]; [now injection M as <-|].
  destruct (oneOf schema) as [b|]; [now injection M as <-|].
  destruct (allOf schema) as [c|]; [now injection M as <-|discriminate].
Qed.

Lemma union_members_take_over_witness :
  simplifySchemaForDatabricks 3
    (with_description (Some "ignored") (allOfNode [variantA; variantAB]))
    4 0 None
  = simplifySchemaForDatabricks 3 (unionOf [variantA; variantAB]) 4 0
      (Some []).
Proof.
  apply (@union_members_take_over 3
           (with_description (Some "ignored") (allOfNode [variantA; variantAB]))
           4 0 None [variantA; variantAB]); reflexivity.
Defined.

(** When every option simplifies to a node without a (truthy) [type] - in
    particular when there is no option at all - the merge gives the opaque
    fallback. *)
Theorem merge_of_untyped_options_is_opaque
    (simplify : JsonSchema -> Z -> Z -> Record_ JsonSchema
                -> option JsonSchema)
    (options : list JsonSchema) (maxDepth currentDepth : Z)
    (defs : Record_ JsonSchema) :
  (forall o, In o options ->
     exists r, simplify o maxDepth currentDepth defs = Some r
               /\ truthy_type (type r) = false) ->
  mergeSchemaOptions simplify options maxDepth currentDepth defs
  = Some opaque.
Proof.
  intros H. unfold mergeSchemaOptions.
  assert (L : forall st, hasObjectOptions st = false ->
            mergeLoop (fun o => simplify o maxDepth currentDepth defs)
                      options st = Some (inr st)).
  { induction options as [|o options IH]; intros st B; simpl; [reflexivity|].
    destruct (H o (or_introl eq_refl)) as (r & -> & T).
    assert (O : isObjectOption r = false).
    { unfold isObjectOption. destruct (type r) as [[tag|]|]; try reflexivity.
      simpl in T. apply negb_false_iff, String.eqb_eq in T. now subst. }
    rewrite O, T. simpl. apply IH; [|exact B].
    intros; apply H; now right. }
  rewrite L by reflexivity. reflexivity.
Qed.

Lemma merge_of_untyped_options_is_opaque_witness :
  mergeSchemaOptions
    (fun s m d ds => simplifySchemaForDatabricks 1 s m d (Some ds))
    [with_description (Some "any") emptySchema] 4 0 []
  = Some opaque.
Proof.
  apply merge_of_untyped_options_is_opaque.
  intros o [<-|[]]. eexists. split; reflexivity.
Defined.

(** The Property Merger returns one of its two arguments or a node with
    [type: "string"] and at most a [description]; when the types are equal
    it returns the first; and it never loses typedness: if either argument
    has a (truthy) type, so has the result. *)
Theorem mergePropertySchemas_result (schema1 schema2 : JsonSchema) :
  (mergePropertySchemas schema1 schema2 = schema1
   \/ mergePropertySchemas schema1 schema2 = schema2
   \/ mergePropertySchemas schema1 schema2 = ofType "string"
   \/ exists d, mergePropertySchemas schema1 schema2
                = with_description (Some d) (ofType "string"))
  /\ (type_strict_eq (type schema1) (type schema2) = true ->
      mergePropertySchemas schema1 schema2 = schema1)
  /\ (truthy_type (type schema1) || truthy_type (type schema2) = true ->
      truthy_type (type (mergePropertySchemas schema1 schema2)) = true).
Proof.
  unfold mergePropertySchemas.
  destruct (type_strict_eq (type schema1) (type schema2)) eqn:E.
  { split; [now left|]. split; [reflexivity|].
    intros T. destruct (type schema1) as [[a|]|], (type schema2) as [[b|]|];
      try discriminate; simpl in *.
    apply String.eqb_eq in E. subst. now rewrite orb_diag in T. }
  destruct (truthy_type (type schema1)) eqn:T1,
           (truthy_type (type schema2)) eqn:T2; simpl.
  - split; [|split; [discriminate|]].
    + destruct (0 <? _); eauto 6.
    + intros _. now destruct (0 <? _).
  - split; [now left|]. split; [discriminate|]. now rewrite T1.
  - split; [now right; left|]. split; [discriminate|]. now rewrite T2.
  - split; [|split; discriminate].
    destruct (0 <? _); eauto 6.
Qed.

Lemma mergePropertySchemas_result_witness :
  mergePropertySchemas (ofType "number") (ofType "number") = ofType "number"
  /\ truthy_type
       (type (mergePropertySchemas (ofType "number")
                (with_description (Some "text") emptySchema))) = true.
Proof.
  destruct (mergePropertySchemas_result (ofType "number") (ofType "number"))
    as (_ & H & _).
  destruct (mergePropertySchemas_result (ofType "number")
              (with_description (Some "text") emptySchema)) as (_ & _ & K).
  split; [apply H | apply K]; reflexivity.
Defined.

(** A reference that holds neither [#/$defs/] nor [#/definitions/] (a bare
    name, a URL) is read from the reference table under its own text: when
    the table has it, the referenced node is simplified at the same depth;
    when the table lacks it, the result is the opaque fallback, unless the
    text names a member of [Object.prototype], which the read finds and
    which gives [{type: "object"}]. *)
Theorem unmarked_ref_is_looked_up_verbatim (fuel : nat) (schema : JsonSchema)
    (maxDepth currentDepth : Z) (definitions' : option (Record_ JsonSchema))
    (r : string) :
  dollar_ref schema = Some r -> r <> "" ->
  contains "#/$defs/" r = false -> contains "#/definitions/" r = false ->
  (currentDepth >? maxDepth) = false ->
  simplifySchemaForDatabricks (S (S fuel)) schema maxDepth currentDepth
    definitions'
  = match obj_get r (tableOf schema definitions') with
    | Some refSchema =>
        simplifySchemaForDatabricks (S fuel) refSchema maxDepth currentDepth
          (Some (tableOf schema definitions'))
    | None =>
        Some (if isObjectPrototypeMember r then ofType "object" else opaque)
    end.
Proof.
  intros R N C1 C2 D.
  rewrite (@simplify_ref_cases fuel schema maxDepth currentDepth definitions'
             r R N).
  unfold refPathOf. rewrite (replace_first_absent _ _ C1),
                      (replace_first_absent _ _ C2), D.
  destruct (obj_get r _); [reflexivity|].
  now destruct (isObjectPrototypeMember r).
Qed.

Lemma unmarked_ref_is_looked_up_verbatim_witness :
  (simplifySchemaForDatabricks 3 (refTo "Point") 4 0 (Some [("Point", Point)])
   = simplifySchemaForDatabricks 2 Point 4 0 (Some [("Point", Point)])
   /\ simplifySchemaForDatabricks 2 Point 4 0 (Some [("Point", Point)])
      = Some Point)
  /\ simplifySchemaForDatabricks 2 (refTo "constructor") 4 0
       (Some [("Point", Point)])
     = Some (ofType "object")
  /\ simplifySchemaForDatabricks 2 (refTo "Line") 4 0
       (Some [("Point", Point)])
     = Some opaque.
Proof.
  split; [split|split].
  - apply (@unmarked_ref_is_looked_up_verbatim 1 (refTo "Point") 4 0
             (Some [("Point", Point)]) "Point"); try reflexivity.
    discriminate.
  - reflexivity.
  - apply (@unmarked_ref_is_looked_up_verbatim 0 (refTo "constructor") 4 0
             (Some [("Point", Point)]) "constructor"); try reflexivity.
    discriminate.
  - apply (@unmarked_ref_is_looked_up_verbatim 0 (refTo "Line") 4 0
             (Some [("Point", Point)]) "Line"); try reflexivity.
    discriminate.
Defined.

(* ------------------------------------------------------------------ *)
(** * Further properties of the Option Merger *)

Lemma obj_get_mergeEntries_other p entries : forall merged,
  ~ In p (obj_keys entries) ->
  obj_get p (mergeEntries entries merged) = obj_get p merged.
Proof.
  induction entries as [|[key propSchema] entries IH]; intros merged N;
    simpl; [reflexivity|].
  simpl in N. rewrite IH by tauto.
  destruct (js_lookup key merged); apply obj_get_set_other; intros ->; tauto.
Qed.

(** The first entry of a name: it is stored as it is, or merged with the
    member that [Object.prototype] has under that name. *)
Lemma obj_get_mergeEntries_new p entries : forall merged,
  NoDup (obj_keys entries) -> obj_get p merged = None ->
  obj_get p (mergeEntries entries merged)
  = if isObjectPrototypeMember p
    then option_map (mergePropertySchemas inheritedMember) (obj_get p entries)
    else obj_get p entries.
Proof.
  induction entries as [|[key propSchema] entries IH]; intros merged D M;
    simpl.
  { rewrite M. now destruct (isObjectPrototypeMember p). }
  simpl in D. inversion D as [|? ? Hn Hd]; subst.
  destruct (String.eqb p key) eqn:E.
  - apply String.eqb_eq in E. subst key. unfold js_lookup. rewrite M.
    rewrite obj_get_mergeEntries_other by exact Hn.
    destruct (isObjectPrototypeMember p); simpl; apply obj_get_set_same.
  - apply String.eqb_neq in E. apply IH; [exact Hd|].
    destruct (js_lookup key merged); now rewrite obj_get_set_other.
Qed.

Lemma mergeEntries_NoDup entries : forall merged,
  NoDup (obj_keys merged) -> NoDup (obj_keys (mergeEntries entries merged)).
Proof.
  induction entries as [|[key propSchema] entries IH]; intros merged D;
    simpl; [exact D|].
  apply IH. destruct (js_lookup key merged); now apply obj_set_NoDup.
Qed.

Lemma fold_mergeEntries_NoDup variants : forall merged,
  NoDup (obj_keys merged) ->
  NoDup (obj_keys
           (fold_left (fun m v => mergeEntries (or_else (properties v) []) m)
                      variants merged)).
Proof.
  induction variants as [|v variants IH]; intros merged D; simpl; [exact D|].
  apply IH. now apply mergeEntries_NoDup.
Qed.

Lemma fold_mergeEntries_other p variants : forall merged,
  (forall w, In w variants -> ~ In p (propertyNames w)) ->
  obj_get p
    (fold_left (fun m v => mergeEntries (or_else (properties v) []) m)
               variants merged)
  = obj_get p merged.
Proof.
  induction variants as [|v variants IH]; intros merged H; simpl;
    [reflexivity|].
  rewrite IH by (intros; apply H; now right).
  apply obj_get_mergeEntries_other. apply (H v). now left.
Qed.

(** When the walk runs to its end and has seen object variants, the merged
    node has a [properties] table with distinct names, which are exactly the
    names of the properties of the variants. *)
Theorem merged_properties_are_the_union
    (simplify : JsonSchema -> Z -> Z -> Record_ JsonSchema
                -> option JsonSchema)
    (options : list JsonSchema) (maxDepth currentDepth : Z)
    (defs : Record_ JsonSchema) (st : MergeState) :
  let f := fun o => simplify o maxDepth currentDepth defs in
  let variants := objectVariants f options in
  mergeLoop f options initialMergeState = Some (inr st) ->
  variants <> [] ->
  exists merged ps,
    mergeSchemaOptions simplify options maxDepth currentDepth defs
    = Some merged
    /\ type merged = Some (TSingle "object")
    /\ properties merged = Some ps
    /\ NoDup (obj_keys ps)
    /\ forall p, In p (obj_keys ps)
                 <-> exists v, In v variants /\ In p (propertyNames v).
Proof.
  intros f variants W NE.
  destruct (mergeLoop_completed f options _ W) as (_ & HO & HM).
  simpl in HO, HM. fold variants in HM.
  assert (HB : hasObjectOptions st = true).
  { rewrite HO. unfold seesObjectOption. fold variants.
    destruct variants; [congruence | reflexivity]. }
  exists (mergeFinish st), (mergedProperties st).
  split; [unfold mergeSchemaOptions; fold f; now rewrite W|].
  unfold mergeFinish. rewrite HB. simpl.
  split; [now destruct (0 <? _)|]. split; [now destruct (0 <? _)|].
  rewrite HM. split.
  - apply fold_mergeEntries_NoDup. constructor.
  - intros p. rewrite fold_mergeEntries_keys. simpl. tauto.
Qed.

Lemma merged_properties_are_the_union_witness :
  exists merged ps,
    mergeSchemaOptions
      (fun s m d ds => simplifySchemaForDatabricks 2 s m d (Some ds))
      [variantA; variantAB] 4 0 [] = Some merged
    /\ type merged = Some (TSingle "object")
    /\ properties merged = Some ps
    /\ NoDup (obj_keys ps)
    /\ forall p, In p (obj_keys ps)
                 <-> exists v, In v [variantA; variantAB]
                               /\ In p (propertyNames v).
Proof.
  apply (@merged_properties_are_the_union
           (fun s m d ds => simplifySchemaForDatabricks 2 s m d (Some ds))
           [variantA; variantAB] 4 0 []
           (mkMergeState [("a", ofType "string"); ("b", ofType "number")]
                         [["a"]; []] true)).
  - reflexivity.
  - discriminate.
Defined.

(** A property that only one of the object variants declares is carried
    into the merged node with the schema it has in that variant, unless its
    name is that of a member of [Object.prototype]: then the merger finds
    the inherited member under that name and stores the merge of that member
    with the schema (the schema itself when it has a truthy type, the
    inherited member when it has no type). *)
Theorem property_of_one_variant_is_kept
    (simplify : JsonSchema -> Z -> Z -> Record_ JsonSchema
                -> option JsonSchema)
    (options : list JsonSchema) (maxDepth currentDepth : Z)
    (defs : Record_ JsonSchema) (st : MergeState)
    (pre : list JsonSchema) (v : JsonSchema) (post : list JsonSchema)
    (p : string) :
  let f := fun o => simplify o maxDepth currentDepth defs in
  mergeLoop f options initialMergeState = Some (inr st) ->
  objectVariants f options = (pre ++ v :: post)%list ->
  NoDup (propertyNames v) ->
  (forall w, In w pre \/ In w post -> ~ In p (propertyNames w)) ->
  exists merged,
    mergeSchemaOptions simplify options maxDepth currentDepth defs
    = Some merged
    /\ obj_get p (or_else (properties merged) [])
       = (if isObjectPrototypeMember p
          then option_map (mergePropertySchemas inheritedMember)
                          (obj_get p (or_else (properties v) []))
          else obj_get p (or_else (properties v) []))
    /\ (forall x, obj_get p (or_else (properties v) []) = Some x ->
          truthy_type (type x) = true ->
          obj_get p (or_else (properties merged) []) = Some x).
Proof.
  intros f W V D O.
  destruct (mergeLoop_completed f options _ W) as (_ & HO & HM).
  simpl in HO, HM. rewrite V in HM.
  assert (HB : hasObjectOptions st = true).
  { rewrite HO. unfold seesObjectOption. rewrite V.
    now destruct pre. }
  exists (mergeFinish st).
  split; [unfold mergeSchemaOptions; fold f; now rewrite W|].
  assert (E : properties (mergeFinish st) = Some (mergedProperties st)).
  { unfold mergeFinish. rewrite HB. simpl. now destruct (0 <? _). }
  rewrite E. simpl. rewrite HM, fold_left_app. simpl.
  rewrite fold_mergeEntries_other by (intros; apply O; now right).
  rewrite obj_get_mergeEntries_new;
    [|exact D
     |now rewrite fold_mergeEntries_other by (intros; apply O; now left)].
  split; [reflexivity|].
  intros x -> T. destruct (isObjectPrototypeMember p); [|reflexivity].
  simpl. unfold mergePropertySchemas.
  destruct (type x) as [t|] eqn:Tx; [|discriminate].
  change (type inheritedMember) with (@None TypeVal). simpl.
  simpl in T. now rewrite T.
Qed.

Lemma property_of_one_variant_is_kept_witness :
  (exists merged,
     mergeSchemaOptions
       (fun s m d ds => simplifySchemaForDatabricks 2 s m d (Some ds))
       [variantA; variantAB] 4 0 [] = Some merged
     /\ obj_get "b" (or_else (properties merged) [])
        = Some (ofType "number")
     /\ (forall x, obj_get "b" (or_else (properties variantAB) []) = Some x ->
           truthy_type (type x) = true ->
           obj_get "b" (or_else (properties merged) []) = Some x))
  /\ (exists merged,
        mergeSchemaOptions
          (fun s m d ds => simplifySchemaForDatabricks 2 s m d (Some ds))
          [objectOf [("toString", with_description (Some "d") emptySchema)]]
          4 0 [] = Some merged
        /\ obj_get "toString" (or_else (properties merged) [])
           = Some inheritedMember
        /\ (forall x,
              obj_get "toString"
                (or_else (properties
                            (objectOf [("toString",
                                        with_description (Some "d")
                                                         emptySchema)])) [])
              = Some x ->
              truthy_type (type x) = true ->
              obj_get "toString" (or_else (properties merged) []) = Some x)).
Proof.
  split.
  - apply (@property_of_one_variant_is_kept
             (fun s m d ds => simplifySchemaForDatabricks 2 s m d (Some ds))
             [variantA; variantAB] 4 0 []
             (mkMergeState [("a", ofType "string"); ("b", ofType "number")]
                           [["a"]; []] true)
             [variantA] variantAB [] "b").
    + reflexivity.
    + reflexivity.
    + vm_compute. repeat constructor; simpl; intuition discriminate.
    + intros w [[<-|[]]|[]]. vm_compute. intuition discriminate.
  - apply (@property_of_one_variant_is_kept
             (fun s m d ds => simplifySchemaForDatabricks 2 s m d (Some ds))
             [objectOf [("toString", with_description (Some "d") emptySchema)]]
             4 0 []
             (mkMergeState [("toString", inheritedMember)] [[]] true)
             [] (objectOf [("toString",
                            with_description (Some "d") emptySchema)])
             [] "toString").
    + reflexivity.
    + reflexivity.
    + vm_compute. repeat constructor; simpl; intuition discriminate.
    + intros w [[]|[]].
Defined.

(* ------------------------------------------------------------------ *)
(** * Further properties of the Response Interceptor *)

Lemma isToolsListResponse_inv message :
  isToolsListResponse message = true ->
  js_truthy (js_get "method" message) = false
  /\ js_truthy (js_get "result" message) = true
  /\ isArray (js_get "tools" (js_get "result" message)) = true.
Proof.
  unfold isToolsListResponse.
  destruct (negb (js_truthy message) || _); [discriminate|].
  destruct (js_truthy (js_get "method" message)); [discriminate|].
  destruct (js_truthy (js_get "result" message)); [|discriminate].
  simpl. auto.
Qed.

(** A message cannot be both a [tools/list] request and a tool-listing
    response: a body that [isToolsListRequest] accepts is not classified by
    [isToolsListResponse], so the wrapped send forwards it untouched. *)
Theorem request_is_not_a_response (Outcome : Type)
    (originalSend : JsVal -> Outcome) (fuel : nat) (body : JsVal) :
  isToolsListRequest body = true ->
  isToolsListResponse body = false
  /\ wrappedSend originalSend fuel body = Some (originalSend body).
Proof.
  intros Q.
  assert (C : isToolsListResponse body = false).
  { unfold isToolsListRequest in Q. unfold isToolsListResponse.
    destruct (negb (js_truthy body) || _); [reflexivity|].
    destruct (js_get "method" body) as [| | | |m| | |]; try discriminate.
    apply String.eqb_eq in Q. subst m. reflexivity. }
  split; [exact C|]. unfold wrappedSend. now rewrite C.
Qed.

Lemma request_is_not_a_response_witness :
  isToolsListResponse
    (JObj [("jsonrpc", JStr "2.0"); ("id", JNum 1);
           ("method", JStr "tools/list");
           ("result", JObj [("tools", JArr [])])]) = false
  /\ wrappedSend (fun m => m) 0
       (JObj [("jsonrpc", JStr "2.0"); ("id", JNum 1);
              ("method", JStr "tools/list");
              ("result", JObj [("tools", JArr [])])])
     = Some (JObj [("jsonrpc", JStr "2.0"); ("id", JNum 1);
                   ("method", JStr "tools/list");
                   ("result", JObj [("tools", JArr [])])]).
Proof.
  apply (request_is_not_a_response (fun m => m) 0). reflexivity.
Defined.

(** The rewritten message is again a tool-listing response, with as many
    tools as the original. *)
Theorem rewritten_message_is_classified (fuel : nat) (message out : JsVal)
    (tools : list JsVal) :
  isToolsListResponse message = true ->
  js_get "tools" (js_get "result" message) = JArr tools ->
  simplifyToolsListResponse fuel message = Some out ->
  isToolsListResponse out = true
  /\ exists tools',
       js_get "tools" (js_get "result" out) = JArr tools'
       /\ length tools' = length tools.
Proof.
  intros C G R.
  destruct (isToolsListResponse_inv _ C) as (M & _ & _).
  destruct (simplifyToolsListResponse_classified fuel message C)
    as (tools0 & G0 & E).
  rewrite G in G0. injection G0 as <-. rewrite E in R.
  destruct (mapM (simplifyTool fuel) tools) as [tools'|] eqn:MM;
    [|discriminate].
  injection R as <-.
  assert (T : js_get "tools"
                (js_get "result"
                   (JObj (obj_set "result"
                            (JObj (obj_set "tools" (JArr tools')
                                     (own_entries (js_get "result" message))))
                            (own_entries message)))) = JArr tools').
  { rewrite js_get_set_same. apply js_get_set_same. }
  split.
  - unfold isToolsListResponse. rewrite T.
    rewrite js_get_set_other by discriminate. rewrite M.
    rewrite js_get_set_same. reflexivity.
  - exists tools'. split; [exact T|]. eapply mapM_length; eauto.
Qed.

Lemma rewritten_message_is_classified_witness :
  isToolsListResponse listingExampleRewritten = true
  /\ exists tools',
       js_get "tools" (js_get "result" listingExampleRewritten) = JArr tools'
       /\ length tools' = 1%nat.
Proof.
  apply (@rewritten_message_is_classified 1 listingExample
           listingExampleRewritten
           [JObj [("name", JStr "x");
                  ("inputSchema",
                   JSchema (with_type (Some (TSet ["string"; "null"]))
                                      emptySchema))]]); reflexivity.
Defined.







(* ------------------------------------------------------------------ *)
(** * The request body handed to the transport *)

Section DeleteLemmas.
Variable A : Type.
Implicit Types (o : Record_ A) (k : string).

Lemma obj_get_delete_same k o : obj_get k (obj_delete k o) = None.
Proof.
  induction o as [|[k' v] o IH]; simpl; [reflexivity|].
  destruct (String.eqb k k') eqn:E; [exact IH|]. simpl. now rewrite E.
Qed.

Lemma obj_get_delete_other k k' o :
  k <> k' -> obj_get k (obj_delete k' o) = obj_get k o.
Proof.
  intros N. induction o as [|[k0 v] o IH]; simpl; [reflexivity|].
  destruct (String.eqb k' k0) eqn:E; simpl.
  - apply String.eqb_eq in E. subst k0.
    apply String.eqb_neq in N. now rewrite N.
  - now rewrite IH.
Qed.

Lemma obj_set_get_same k (v : A) o : obj_get k o = Some v -> obj_set k v o = o.
Proof.
  induction o as [|[k' v'] o IH]; simpl; [discriminate|].
  destruct (String.eqb k k') eqn:E.
  - apply String.eqb_eq in E. now intros [= ->]; subst.
  - intros H. now rewrite IH.
Qed.
End DeleteLemmas.

Lemma set_has_false x s : set_has x s = false <-> ~ In x s.
Proof.
  rewrite <- set_has_In. destruct (set_has x s); split; congruence.
Qed.

Lemma deleteFields_get fields : forall o k,
  obj_get k (deleteFields fields o)
  = if set_has k fields then None else obj_get k o.
Proof.
  unfold deleteFields, set_has.
  induction fields as [|f fields IH]; intros o k; [reflexivity|].
  cbn [fold_left existsb]. rewrite IH.
  destruct (String.eqb k f) eqn:E;
    destruct (existsb (String.eqb k) fields); simpl; try reflexivity.
  - apply String.eqb_eq in E. subst f.
    destruct (obj_get k o) eqn:G; simpl; [apply obj_get_delete_same|exact G].
  - apply String.eqb_neq in E.
    destruct (is_some (obj_get f o)); [now apply obj_get_delete_other|].
    reflexivity.
Qed.

Lemma deleteNullFields_get fields : forall o k,
  obj_get k (deleteNullFields fields o)
  = if set_has k fields && isNullMember (obj_get k o) then None
    else obj_get k o.
Proof.
  unfold deleteNullFields, set_has.
  induction fields as [|f fields IH]; intros o k; [reflexivity|].
  cbn [fold_left existsb]. rewrite IH.
  destruct (String.eqb k f) eqn:E.
  - apply String.eqb_eq in E. subst f.
    destruct (obj_get k o) as [[| | | | |]|] eqn:G; rewrite ?G; simpl;
      rewrite ?andb_false_r; try reflexivity.
    rewrite obj_get_delete_same. simpl. now rewrite andb_false_r.
  - apply String.eqb_neq in E.
    assert (K : obj_get k
                  match obj_get f o with
                  | Some LNull => obj_delete f o
                  | _ => o
                  end = obj_get k o).
    { destruct (obj_get f o) as [[| | | | |]|]; try reflexivity.
      now apply obj_get_delete_other. }
    now rewrite K.
Qed.

Lemma deleteFields_clean fields : forall o,
  forallb (fun k => negb (is_some (obj_get k o))) fields = true ->
  deleteFields fields o = o.
Proof.
  unfold deleteFields.
  induction fields as [|f fields IH]; intros o H; simpl; [reflexivity|].
  simpl in H. apply andb_true_iff in H. destruct H as [H1 H2].
  apply negb_true_iff in H1. rewrite H1. now apply IH.
Qed.

Lemma deleteNullFields_clean fields : forall o,
  forallb (fun k => negb (isNullMember (obj_get k o))) fields = true ->
  deleteNullFields fields o = o.
Proof.
  unfold deleteNullFields.
  induction fields as [|f fields IH]; intros o H; simpl; [reflexivity|].
  simpl in H. apply andb_true_iff in H. destruct H as [H1 H2].
  destruct (obj_get f o) as [[| | | | |]|]; try discriminate; now apply IH.
Qed.

Lemma cleanBody_fixed (b : Json) :
  cleanBody b = true -> sanitizeBody (Some b) = Some b.
Proof.
  intros C. unfold sanitizeBody.
  destruct (negb (json_truthy b) || negb (json_typeof_object b)
            || Nat.eqb (json_key_count b) 0); [reflexivity|].
  destruct b as [| | | | |fields]; try reflexivity.
  unfold cleanBody in C. apply andb_true_iff in C. destruct C as [C1 C2].
  cbn zeta. rewrite (deleteFields_clean _ _ C1).
  destruct (obj_get "params" fields) as [[| | | | |params]|] eqn:P;
    try discriminate; rewrite ?P; try reflexivity.
  rewrite (deleteNullFields_clean _ _ C2).
  rewrite (obj_set_get_same _ _ P). now rewrite P.
Qed.

(** What [sanitizeBody] returns on an object with members, member by
    member. *)
Lemma sanitize_object fields :
  fields <> [] ->
  exists fields',
    sanitizeBody (Some (LObj fields)) = Some (LObj fields')
    /\ (forall k, k <> "params" ->
          obj_get k fields'
          = if set_has k extraFields then None else obj_get k fields)
    /\ obj_get "params" fields'
       = match obj_get "params" fields with
         | Some LNull => None
         | Some (LObj params) =>
             Some (LObj (deleteNullFields nullableFields params))
         | other => other
         end.
Proof.
  intros NE. unfold sanitizeBody.
  assert (K : Nat.eqb (json_key_count (LObj fields)) 0 = false)
    by (destruct fields; [congruence | reflexivity]).
  rewrite K. cbn [json_truthy json_typeof_object negb orb].
  eexists. split; [reflexivity|]. cbn zeta.
  set (F1 := deleteFields extraFields fields).
  assert (P1 : obj_get "params" F1 = obj_get "params" fields)
    by (unfold F1; now rewrite deleteFields_get).
  assert (O1 : forall k, obj_get k F1
                         = if set_has k extraFields then None
                           else obj_get k fields)
    by (intros; unfold F1; apply deleteFields_get).
  rewrite P1.
  destruct (obj_get "params" fields) as [[| | | | |params]|] eqn:P;
    rewrite ?P1, ?obj_get_set_same.
  - split; [|apply obj_get_delete_same].
    intros k N. rewrite obj_get_delete_other by exact N. apply O1.
  - split; [intros; apply O1 | first [exact P1 | reflexivity]].
  - split; [intros; apply O1 | first [exact P1 | reflexivity]].
  - split; [intros; apply O1 | first [exact P1 | reflexivity]].
  - split; [intros; apply O1 | first [exact P1 | reflexivity]].
  - split; [|first [apply obj_get_set_same | reflexivity]].
    intros k N. rewrite obj_get_set_other by exact N. apply O1.
  - split; [intros; apply O1 | first [exact P1 | reflexivity]].
Qed.

Lemma sanitizeBody_cleans (body : option Json) (b' : Json) :
  sanitizeBody body = Some b' -> cleanBody b' = true.
Proof.
  destruct body as [b|]; [|discriminate].
  destruct b as [| | | | |fields]; try (intros [= <-]; reflexivity).
  - simpl. destruct b; intros [= <-]; reflexivity.
  - simpl. destruct (n =? 0); intros [= <-]; reflexivity.
  - simpl. destruct (String.eqb s ""); intros [= <-]; reflexivity.
  - simpl. destruct (length l =? 0)%nat; intros [= <-]; reflexivity.
  - destruct fields as [|kv fields]; [intros [= <-]; reflexivity|].
    destruct (@sanitize_object (kv :: fields)) as (fields' & E & O & P);
      [discriminate|].
    rewrite E. intros [= <-]. unfold cleanBody.
    apply andb_true_iff. split.
    + unfold extraFields. cbn [forallb].
      rewrite !O by discriminate. reflexivity.
    + rewrite P.
      destruct (obj_get "params" (kv :: fields)) as [[| | | | |params]|];
        try reflexivity.
      unfold nullableFields. cbn [forallb].
      rewrite !deleteNullFields_get.
      repeat match goal with
             | |- context [obj_get ?k params] =>
                 destruct (obj_get k params) as [[| | | | |]|]
             end; reflexivity.
Qed.



(** Sanitising is idempotent, and what it returns is a clean body. *)
Theorem sanitizeBody_idempotent (body : option Json) :
  sanitizeBody (sanitizeBody body) = sanitizeBody body
  /\ match sanitizeBody body with
     | Some b' => cleanBody b' = true
     | None => body = None
     end.
Proof.
  destruct (sanitizeBody body) as [b'|] eqn:E.
  - pose proof (sanitizeBody_cleans _ E) as C.
    split; [now apply cleanBody_fixed | exact C].
  - split; [reflexivity|].
    destruct body as [b|]; [|reflexivity].
    unfold sanitizeBody in E.
    destruct (_ || _) in E; [discriminate|]. destruct b; discriminate.
Qed.





(* ------------------------------------------------------------------ *)
(** * The object and array branches *)

Lemma simplifyProperties_pointwise (f : JsonSchema -> option JsonSchema)
    (entries : Record_ JsonSchema) :
  forall acc out : Record_ JsonSchema,
    NoDup (obj_keys (acc ++ entries)%list) ->
    simplifyProperties f entries acc = Some out ->
    (exists out',
       out = (acc ++ out')%list
       /\ Forall2 (fun kv kv' =>
                     fst kv = fst kv' /\ f (snd kv) = Some (snd kv'))
                  (withoutProto entries) out')
    /\ Forall (fun kv => exists r, f (snd kv) = Some r) entries.
Proof.
  induction entries as [|[k v] entries IH]; intros acc out N H; simpl in H.
  - injection H as <-. split; [|constructor].
    exists []. split; [now rewrite app_nil_r|constructor].
  - destruct (f v) as [v'|] eqn:Fv; [|discriminate].
    assert (N' : NoDup (map fst acc ++ k :: map fst entries)).
    { unfold obj_keys in N. now rewrite map_app in N. }
    unfold js_assign in H. simpl.
    destruct (String.eqb k "__proto__") eqn:E; simpl.
    + apply IH in H.
      * destruct H as [H F]. split; [exact H|].
        constructor; [now exists v' | exact F].
      * unfold obj_keys. rewrite map_app.
        exact (NoDup_remove_1 _ _ _ N').
    + assert (K : ~ In k (obj_keys acc)).
      { apply NoDup_remove_2 in N'. intros I. apply N', in_or_app.
        now left. }
      rewrite (@obj_set_fresh _ k v' acc K) in H.
      apply IH in H.
      * destruct H as [(out' & -> & F) G]. split.
        -- exists ((k, v') :: out'). split.
           ++ now rewrite <- app_assoc.
           ++ constructor; [now split | exact F].
        -- constructor; [now exists v' | exact G].
      * unfold obj_keys. rewrite !map_app. simpl.
        rewrite <- app_assoc. exact N'.
Qed.

Lemma schemaToProcessOf_carried s :
  required (schemaToProcessOf s) = required s
  /\ description (schemaToProcessOf s) = description s
  /\ additionalProperties (schemaToProcessOf s) = additionalProperties s.
Proof.
  unfold schemaToProcessOf. destruct (type s) as [[|]|]; repeat split.
Qed.

Lemma normalized_type_is tag s :
  normalizeType (type s) = Some tag ->
  type_is tag (type (schemaToProcessOf s)) = true.
Proof.
  unfold schemaToProcessOf.
  destruct (type s) as [[t|tags]|] eqn:T; simpl; rewrite ?T; simpl.
  - destruct (String.eqb t ""); intros [= ->]; apply String.eqb_refl.
  - destruct (filter _ tags); intros [= ->]; apply String.eqb_refl.
  - discriminate.
Qed.

Lemma mergedOptions_none s :
  mergedOptions s = None ->
  anyOf s = None /\ oneOf s = None /\ allOf s = None.
Proof.
  unfold mergedOptions.
  destruct (anyOf s), (oneOf s), (allOf s); try discriminate. auto.
Qed.

(** The object branch: a node without [$ref] and without
    [anyOf]/[oneOf]/[allOf] whose type normalises to [object] and that has
    [properties] (with distinct names) becomes, up to depth [maxDepth], the
    node with the same property names in the same order, each property
    simplified one level deeper, the same [required] and
    [additionalProperties], its [description] if not empty, and nothing
    else; except that a property named [__proto__] is simplified like the
    others and then left out: assigning it sets the prototype of the new
    table and adds no property. *)
Theorem object_branch_shape (fuel : nat) (schema : JsonSchema)
    (maxDepth currentDepth : Z) (definitions' : option (Record_ JsonSchema))
    (ps : Record_ JsonSchema) (s : JsonSchema) :
  truthy_string (dollar_ref schema) = false ->
  mergedOptions schema = None ->
  normalizeType (type schema) = Some "object" ->
  properties schema = Some ps ->
  NoDup (obj_keys ps) ->
  currentDepth <= maxDepth ->
  simplifySchemaForDatabricks (S fuel) schema maxDepth currentDepth
    definitions' = Some s ->
  (exists ps',
     s = objectNode ps' (required schema)
           (if truthy_string (description schema) then description schema
            else None)
           (additionalProperties schema)
     /\ Forall2 (fun kv kv' =>
                   fst kv = fst kv'
                   /\ simplifySchemaForDatabricks fuel (snd kv) maxDepth
                        (currentDepth + 1)
                        (Some (tableOf schema definitions'))
                      = Some (snd kv'))
                (withoutProto ps) ps')
  /\ Forall (fun kv =>
               exists r,
                 simplifySchemaForDatabricks fuel (snd kv) maxDepth
                   (currentDepth + 1) (Some (tableOf schema definitions'))
                 = Some r) ps.
Proof.
  intros R M T P N D H. simpl in H. unfold simplifyBody in H.
  rewrite (gtb_false D) in H.
  rewrite dollar_ref_schemaToProcess, R in H.
  destruct (@mergedOptions_none _ M) as (A & O & L).
  destruct (schemaToProcessOf_members schema) as (Ep & _ & Ea & Eo & El).
  destruct (schemaToProcessOf_carried schema) as (Er & Ed & Eap).
  rewrite Ea, Eo, El, A, O, L, Ep, P, Er, Ed, Eap in H.
  rewrite (@normalized_type_is _ _ T) in H. simpl in H.
  destruct (simplifyProperties _ ps []) as [out|] eqn:S; [|discriminate].
  apply simplifyProperties_pointwise in S; [|exact N].
  destruct S as [(ps' & -> & F) G]. split; [|exact G].
  exists ps'. split; [|exact F].
  injection H as <-. simpl.
  destruct (truthy_string (description schema));
    destruct (additionalProperties schema); reflexivity.
Qed.

Lemma object_branch_shape_witness :
  (exists ps',
     objectOf [("x", ofType "number")]
     = objectNode ps' None None None
     /\ Forall2 (fun kv kv' =>
                   fst kv = fst kv'
                   /\ simplifySchemaForDatabricks 1 (snd kv) 4 (0 + 1)
                        (Some [])
                      = Some (snd kv'))
                [("x", ofType "number")] ps')
  /\ Forall (fun kv =>
               exists r,
                 simplifySchemaForDatabricks 1 (snd kv) 4 (0 + 1) (Some [])
                 = Some r)
            [("x", ofType "number"); ("__proto__", ofType "string")].
Proof.
  apply (@object_branch_shape 1
           (objectOf [("x", ofType "number"); ("__proto__", ofType "string")])
           4 0 None
           [("x", ofType "number"); ("__proto__", ofType "string")]);
    try reflexivity.
  - repeat constructor; simpl; intuition discriminate.
  - lia.
Defined.

(** The array branch: a node without [$ref] and without
    [anyOf]/[oneOf]/[allOf] whose type normalises to [array] and that has
    [items] becomes, up to depth [maxDepth], the node
    [{type: "array", items, description}] with [items] simplified one level
    deeper and the [description] kept if not empty; every other member is
    dropped. *)
Theorem array_branch_shape (fuel : nat) (schema : JsonSchema)
    (maxDepth currentDepth : Z) (definitions' : option (Record_ JsonSchema))
    (itemsSchema s : JsonSchema) :
  truthy_string (dollar_ref schema) = false ->
  mergedOptions schema = None ->
  normalizeType (type schema) = Some "array" ->
  items schema = Some itemsSchema ->
  currentDepth <= maxDepth ->
  simplifySchemaForDatabricks (S fuel) schema maxDepth currentDepth
    definitions' = Some s ->
  exists simplifiedItems,
    simplifySchemaForDatabricks fuel itemsSchema maxDepth (currentDepth + 1)
      (Some (tableOf schema definitions')) = Some simplifiedItems
    /\ s = arrayNode simplifiedItems
             (if truthy_string (description schema) then description schema
              else None).
Proof.
  intros R M T I D H. simpl in H. unfold simplifyBody in H.
  rewrite (gtb_false D) in H.
  rewrite dollar_ref_schemaToProcess, R in H.
  destruct (@mergedOptions_none _ M) as (A & O & L).
  destruct (schemaToProcessOf_members schema) as (Ep & Ei & Ea & Eo & El).
  destruct (schemaToProcessOf_carried schema) as (Er & Ed & Eap).
  rewrite Ea, Eo, El, A, O, L, Ei, I, Ed in H.
  pose proof (@normalized_type_is _ _ T) as TA. rewrite TA in H.
  assert (TO : type_is "object" (type (schemaToProcessOf schema)) = false).
  { destruct (type (schemaToProcessOf schema)) as [[t|]|];
      try discriminate. simpl in *. apply String.eqb_eq in TA. now subst. }
  rewrite TO in H. simpl in H.
  destruct (simplifySchemaForDatabricks fuel itemsSchema _ _ _)
    as [it|]; [|discriminate].
  exists it. split; [reflexivity|]. injection H as <-.
  now destruct (truthy_string (description schema)).
Qed.

Lemma array_branch_shape_witness :
  exists simplifiedItems,
    simplifySchemaForDatabricks 1 (ofType "string") 4 (0 + 1)
      (Some (tableOf (with_items (Some (ofType "string")) (ofType "array"))
                     None))
    = Some simplifiedItems
    /\ arrayNode (ofType "string") None
       = arrayNode simplifiedItems
           (if truthy_string
                 (description
                    (with_items (Some (ofType "string")) (ofType "array")))
            then description
                   (with_items (Some (ofType "string")) (ofType "array"))
            else None).
Proof.
  apply (@array_branch_shape 1
           (with_items (Some (ofType "string")) (ofType "array")) 4 0 None
           (ofType "string")); try reflexivity.
  lia.
Defined.

(** [simplifyToolsListResponse] returns the very response it is given,
    whatever the fuel, when [result.tools] is not an array - whether or not
    the response has a [method]. *)
Theorem simplifyToolsListResponse_passthrough (fuel : nat) (response : JsVal) :
  isArray (js_get "tools" (js_get "result" response)) = false ->
  simplifyToolsListResponse fuel response = Some response.
Proof.
  intros H. unfold simplifyToolsListResponse.
  destruct (negb (js_truthy response) || _); [reflexivity|].
  destruct (js_truthy (js_get "result" response) && _); [|reflexivity].
  destruct (js_get "tools" (js_get "result" response)); try reflexivity.
  discriminate.
Qed.

Lemma simplifyToolsListResponse_passthrough_witness :
  simplifyToolsListResponse 0
    (JObj [("id", JNum 1); ("result", JObj [("content", JArr [])])])
  = Some (JObj [("id", JNum 1); ("result", JObj [("content", JArr [])])]).
Proof.
  apply simplifyToolsListResponse_passthrough. reflexivity.
Defined.

(* ------------------------------------------------------------------ *)
(** * The merged [required] list *)

Lemma set_add_all_NoDup xs : forall s, NoDup s -> NoDup (set_add_all xs s).
Proof.
  induction xs as [|x xs IH]; intros s D; simpl; [exact D|].
  apply IH. destruct (set_has x s) eqn:E; [exact D|].
  apply set_has_false in E.
  apply NoDup_app; [exact D | repeat constructor; simpl; tauto |].
  intros y I [<-|[]]. contradiction.
Qed.

Lemma finalRequired_NoDup sets :
  Forall (@NoDup string) sets -> NoDup (finalRequired sets).
Proof.
  intros F. unfold finalRequired. destruct sets as [|firstSet sets];
    [constructor|].
  apply NoDup_filter. now inversion F.
Qed.

(** The [required] list of a merged node names each property once, even
    when the variants repeat names in their own [required] lists. *)
Theorem merged_required_has_no_duplicates
    (simplify : JsonSchema -> Z -> Z -> Record_ JsonSchema
                -> option JsonSchema)
    (options : list JsonSchema) (maxDepth currentDepth : Z)
    (defs : Record_ JsonSchema) (st : MergeState) :
  mergeLoop (fun o => simplify o maxDepth currentDepth defs) options
            initialMergeState = Some (inr st) ->
  exists merged,
    mergeSchemaOptions simplify options maxDepth currentDepth defs
    = Some merged
    /\ NoDup (requiredOf merged).
Proof.
  intros W. exists (mergeFinish st).
  split; [unfold mergeSchemaOptions; now rewrite W|].
  destruct (mergeLoop_completed _ options _ W) as (HR & _ & _).
  simpl in HR.
  assert (D : NoDup (finalRequired (requiredSets st))).
  { apply finalRequired_NoDup. rewrite HR. apply Forall_forall.
    intros s I. apply in_map_iff in I. destruct I as (v & <- & _).
    apply set_add_all_NoDup. constructor. }
  unfold mergeFinish, requiredOf.
  destruct (negb (hasObjectOptions st)); [constructor|].
  destruct (finalRequired (requiredSets st)) eqn:E; simpl; [constructor|].
  exact D.
Qed.

Lemma merged_required_has_no_duplicates_witness :
  exists merged,
    mergeSchemaOptions
      (fun s m d ds => simplifySchemaForDatabricks 2 s m d (Some ds))
      [with_required (Some ["a"; "a"]) (objectOf [("a", ofType "string")])]
      4 0 []
    = Some merged
    /\ NoDup (requiredOf merged).
Proof.
  apply (@merged_required_has_no_duplicates
           (fun s m d ds => simplifySchemaForDatabricks 2 s m d (Some ds))
           [with_required (Some ["a"; "a"])
                          (objectOf [("a", ofType "string")])]
           4 0 [] (mkMergeState [("a", ofType "string")] [["a"]] true)).
  reflexivity.
Defined.
